(** * Bookkeeping layer of the RetinaNet primitive

    A shallow embedding of the table-handling code of
    [object_detection/object_detection.py]: the annotation builder of
    [set_training_data] and the detection filtering, box serialisation
    and index mapping of [produce], with the helper
    [_fill_empty_predictions], the accessors [get_params] and
    [set_params] and the collectors [_get_detections] and
    [_get_annotations].  The network itself (image reading,
    preprocessing, inference, rescaling) is a parameter [predict] of the
    model, and so is [np.argsort].  Python exceptions are values of [exn]; a pandas frame is a
    list of rows; a Python [dict] is an insertion-ordered association
    list; a float is the rational it denotes. *)

From Stdlib Require Import ZArith QArith List String Ascii Bool Lia.
From Stdlib Require Import DecimalString.
From Stdlib Require DecimalPos DecimalZ.
Import ListNotations.

Open Scope string_scope.
Open Scope list_scope.

Set Implicit Arguments.

(** ** Python exceptions and the error monad *)

Inductive exn : Type :=
| IndexError   (* positional index out of bounds *)
| ValueError   (* length mismatch in a pandas constructor or setter *)
| KeyError     (* label not found *)
| TypeError    (* iteration over [None] *)
| NameError.   (* unbound global name *)

Inductive result (A : Type) : Type :=
| Ok (a : A)
| Raise (e : exn).

Arguments Ok {A} a.
Arguments Raise {A} e.

Definition bind {A B} (m : result A) (k : A -> result B) : result B :=
  match m with
  | Ok a => k a
  | Raise e => Raise e
  end.

Notation "x <- m ;; k" := (bind m (fun x => k))
  (at level 61, m at next level, right associativity).

(** ** Python strings *)

Module PyStr.

Definition comma : ascii := ","%char.
Definition slash : ascii := "/"%char.

(** [s.split(sep)] for a one-character separator: never empty. *)
Fixpoint split (sep : ascii) (s : string) : list string :=
  match s with
  | EmptyString => [EmptyString]
  | String c s' =>
      if Ascii.eqb c sep then EmptyString :: split sep s'
      else match split sep s' with
           | [] => [String c EmptyString]
           | t :: ts => String c t :: ts
           end
  end.

(** [sep.join(l)] *)
Definition join (sep : ascii) (l : list string) : string :=
  String.concat (String sep EmptyString) l.

(** [c in s] *)
Fixpoint mem (c : ascii) (s : string) : bool :=
  match s with
  | EmptyString => false
  | String d s' => Ascii.eqb d c || mem c s'
  end.

(** [s * n] *)
Fixpoint repeat (s : string) (n : nat) : string :=
  match n with
  | O => EmptyString
  | S n' => s ++ repeat s n'
  end.

(** [s.startswith(c)] and [s.endswith(c)] for one character. *)
Definition startswith (s : string) (c : ascii) : bool :=
  match s with
  | EmptyString => false
  | String d _ => Ascii.eqb d c
  end.

Fixpoint endswith (s : string) (c : ascii) : bool :=
  match s with
  | EmptyString => false
  | String d EmptyString => Ascii.eqb d c
  | String _ s' => endswith s' c
  end.

(** [str(n)] for a Python [int]. *)
Definition str (n : Z) : string := NilZero.string_of_int (Z.to_int n).

End PyStr.

(** ** [os.path] (posixpath) *)

Module OsPath.

(** [os.path.join(a, b)] *)
Definition join (a b : string) : string :=
  if PyStr.startswith b PyStr.slash then b
  else if (String.length a =? 0)%nat || PyStr.endswith a PyStr.slash
       then a ++ b
       else a ++ String PyStr.slash b.

(** [os.path.basename(p)]: what follows the last slash. *)
Definition basename (p : string) : string :=
  last (PyStr.split PyStr.slash p) EmptyString.

End OsPath.

(** ** A fragment of pandas *)

Module Pandas.

(** A cell holds a string or the missing value [None]. *)
Definition cell : Type := option string.

(** Column labels: positions after [str.split], names after renaming. *)
Inductive label : Type :=
| Pos (n : nat)
| Name (s : string).

Definition label_eqb (a b : label) : bool :=
  match a, b with
  | Pos n, Pos m => Nat.eqb n m
  | Name s, Name t => String.eqb s t
  | _, _ => false
  end.

Record frame : Type := {
  columns : list label;
  data : list (list cell)
}.

Fixpoint mapM {A B} (f : A -> result B) (l : list A) : result (list B) :=
  match l with
  | [] => Ok []
  | a :: l' => b <- f a ;; bs <- mapM f l' ;; Ok (b :: bs)
  end.

(** Width of the expanded frame: the longest token list; no column at
    all for an empty series. *)
Definition width (toks : list (list string)) : nat :=
  fold_right (fun t w => Nat.max (List.length t) w) 0%nat toks.

Definition pad (w : nat) (t : list string) : list cell :=
  map Some t ++ List.repeat None (w - List.length t).

(** [series.str.split(',', expand = True)] *)
Definition str_split_expand (series : list string) : frame :=
  let toks := map (PyStr.split PyStr.comma) series in
  let w := width toks in
  {| columns := map Pos (seq 0 w); data := map (pad w) toks |}.

(** [frame.columns[[i, j, ...]]] *)
Definition columns_at (f : frame) (positions : list nat)
  : result (list label) :=
  mapM (fun i => match nth_error (columns f) i with
                 | Some l => Ok l
                 | None => Raise IndexError
                 end) positions.

Definition mem_label (l : label) (ls : list label) : bool :=
  existsb (label_eqb l) ls.

(** Keep the entries of [row] whose column label satisfies [keep]. *)
Fixpoint keep_where {A} (keep : label -> bool) (cols : list label)
         (row : list A) : list A :=
  match cols, row with
  | c :: cols', x :: row' =>
      if keep c then x :: keep_where keep cols' row'
      else keep_where keep cols' row'
  | _, _ => []
  end.

(** [frame.drop(labels, axis = 1)] *)
Definition drop (f : frame) (labels : list label) : result frame :=
  if forallb (fun l => mem_label l (columns f)) labels then
    let keep := fun c => negb (mem_label c labels) in
    Ok {| columns := filter keep (columns f);
          data := map (keep_where keep (columns f)) (data f) |}
  else Raise KeyError.

(** [frame.columns = names] *)
Definition set_columns (f : frame) (names : list label) : result frame :=
  if (List.length names =? List.length (columns f))%nat
  then Ok {| columns := names; data := data f |}
  else Raise ValueError.

Fixpoint index_of (l : label) (cols : list label) : option nat :=
  match cols with
  | [] => None
  | c :: cols' => if label_eqb c l then Some 0%nat
                  else option_map S (index_of l cols')
  end.

(** [frame[[name, ...]]] on a frame whose labels are distinct. *)
Definition getitem (f : frame) (names : list label) : result frame :=
  idx <- mapM (fun l => match index_of l (columns f) with
                        | Some i => Ok i
                        | None => Raise KeyError
                        end) names ;;
  Ok {| columns := names;
        data := map (fun row => map (fun i => nth i row None) idx)
                    (data f) |}.

(** [pd.concat([left, mid, right], axis = 1)] for two series and a
    frame over the same index. *)
Fixpoint concat3 (left : list cell) (mid : list (list cell))
         (right : list cell) : list (list cell) :=
  match left, mid, right with
  | a :: left', m :: mid', c :: right' =>
      (a :: m ++ [c]) :: concat3 left' mid' right'
  | _, _, _ => []
  end.

End Pandas.

(** ** The input table *)

(** One row of the input frame: the row identifier, the file name held
    in the table's FileName column and the packed bounding box. *)
Record Row : Type := {
  d3mIndex : Z;
  image : string;
  bounding_box : string
}.

(** The input frame with the base directory its FileName column
    resolves against ([location_base_uris], [file:///] already made
    [/]). *)
Record Inputs : Type := {
  base_dir : string;
  rows : list Row
}.

(** [self.image_paths] *)
Definition image_paths (inputs : Inputs) : list string :=
  map (fun r => OsPath.join (base_dir inputs) (image r)) (rows inputs).

(** ** [set_training_data] *)

(** What [set_training_data] leaves on the instance. *)
Record TrainingData : Type := {
  annotations : Pandas.frame;
  classes : list (string * Z)
}.

Definition coord_names : list Pandas.label :=
  map Pandas.Name ["x1"; "y1"; "y2"; "x2"].

Definition coord_order : list Pandas.label :=
  map Pandas.Name ["x1"; "y1"; "x2"; "y2"].

Definition annotation_names : list Pandas.label :=
  map Pandas.Name ["img_file"; "x1"; "y1"; "x2"; "y2"; "class_name"].

Definition set_training_data (inputs : Inputs) : result TrainingData :=
  let paths := image_paths inputs in
  let bounding_coords :=
    Pandas.str_split_expand (map bounding_box (rows inputs)) in
  dropped <- Pandas.columns_at bounding_coords [2; 5; 6; 7]%nat ;;
  bounding_coords <- Pandas.drop bounding_coords dropped ;;
  bounding_coords <- Pandas.set_columns bounding_coords coord_names ;;
  bounding_coords <- Pandas.getitem bounding_coords coord_order ;;
  let class_name := List.repeat "class" (List.length (rows inputs)) in
  let table := Pandas.concat3 (map Some paths)
                              (Pandas.data bounding_coords)
                              (map Some class_name) in
  annotations <- Pandas.set_columns
                   {| Pandas.columns :=
                        Pandas.Pos 0 :: Pandas.columns bounding_coords
                        ++ [Pandas.Pos 0];
                      Pandas.data := table |}
                   annotation_names ;;
  Ok {| annotations := annotations; classes := [("class", 0%Z)] |}.

(** ** Python dictionaries *)

Module PyDict.

(** Insertion-ordered, one entry per key. *)
Definition dict (V : Type) : Type := list (string * V).

Fixpoint get {V} (d : dict V) (k : string) : option V :=
  match d with
  | [] => None
  | (k', v) :: d' => if String.eqb k' k then Some v else get d' k
  end.

(** [d[k] = v]: an existing key keeps its place and takes the new
    value, a new key goes last. *)
Fixpoint set {V} (d : dict V) (k : string) (v : V) : dict V :=
  match d with
  | [] => [(k, v)]
  | (k', v') :: d' =>
      if String.eqb k' k then (k', v) :: d' else (k', v') :: set d' k v
  end.

(** [dict(items)] *)
Definition of_items {V} (items : list (string * V)) : dict V :=
  fold_left (fun d kv => set d (fst kv) (snd kv)) items [].

End PyDict.

(** ** Detections *)

(** A row of an N x 4 array: [x[0]], [x[1]], [x[2]], [x[3]], which the
    detector fills with x1, y1, x2, y2. *)
Record Box (A : Type) : Type := {
  c0 : A;
  c1 : A;
  c2 : A;
  c3 : A
}.

(** One pair of [zip(boxes[0], scores[0])], the box already divided by
    the image scale; coordinates and score are finite floats. *)
Record Detection : Type := {
  box : Box Q;
  score : Q
}.

(** [float -> int] conversion: truncation toward zero. *)
Definition Qtruncate (q : Q) : Z := Z.quot (Qnum q) (Zpos (Qden q)).

(** [box.astype(int)] *)
Definition astype_int (b : Box Q) : Box Z :=
  {| c0 := Qtruncate (c0 b); c1 := Qtruncate (c1 b);
     c2 := Qtruncate (c2 b); c3 := Qtruncate (c3 b) |}.

(** [len(b)] *)
Definition len {A} (b : Box A) : nat := 4.

(** [x < y] on floats. *)
Definition Qltb (x y : Q) : bool := negb (Qle_bool y x).

Definition threshold : Q := 1 # 2.

(** The three lists [produce] fills while it visits the images. *)
Record Lists : Type := {
  box_list : list (Box Z);
  score_list : list Q;
  image_name_list : list string
}.

Definition no_lists : Lists :=
  {| box_list := []; score_list := []; image_name_list := [] |}.

(** The loop over one image's detections, with its [break]. *)
Fixpoint scan_detections (i : string) (dets : list Detection) (acc : Lists)
  : Lists :=
  match dets with
  | [] => acc
  | d :: dets' =>
      if Qltb (score d) threshold then acc
      else
        let b := astype_int (box d) in
        scan_detections i dets'
          {| box_list := box_list acc ++ [b];
             score_list := score_list acc ++ [score d];
             image_name_list :=
               image_name_list acc ++ [PyStr.repeat i (len b)] |}
  end.

(** [l.index(x)] where [x] occurs. *)
Fixpoint list_index (x : string) (l : list string) : option nat :=
  match l with
  | [] => None
  | y :: l' => if String.eqb y x then Some 0%nat
               else option_map S (list_index x l')
  end.

Definition enumerate {A} (l : list A) : list (nat * A) :=
  combine (seq 0 (List.length l)) l.

(** [[x for i, x in enumerate(l) if l.index(x) == i]] *)
Definition first_occurrences (l : list string) : list string :=
  map snd
      (filter (fun ix => match list_index (snd ix) l with
                         | Some j => Nat.eqb j (fst ix)
                         | None => false
                         end)
              (enumerate l)).

(** ** The output formatter *)

(** [[x[0], x[1], x[0], x[3], x[2], x[3], x[2], x[1]]] *)
Definition to8 {A} (x : Box A) : list A :=
  [c0 x; c1 x; c0 x; c3 x; c2 x; c3 x; c2 x; c1 x].

(** [",".join(map(str, x))] *)
Definition join_str {A} (str : A -> string) (x : list A) : string :=
  PyStr.join PyStr.comma (map str x).

Definition box_string (b : Box Z) : string :=
  join_str PyStr.str (to8 b).

(** ** The output table *)

Module Out.

Record row : Type := {
  d3mIndex : Z;
  bounding_box : string;
  confidence : Q
}.

(** A row of the frame [_fill_empty_predictions] builds. *)
Record empty_row : Type := {
  e_d3mIndex : Z;
  e_image : string;
  e_bounding_box : string;
  e_confidence : Q
}.

End Out.

(** [pd.DataFrame] of three columns given as lists. *)
Fixpoint zip3 (ids : list Z) (boxes : list string) (scores : list Q)
  : list Out.row :=
  match ids, boxes, scores with
  | i :: ids', b :: boxes', s :: scores' =>
      {| Out.d3mIndex := i; Out.bounding_box := b; Out.confidence := s |}
      :: zip3 ids' boxes' scores'
  | _, _, _ => []
  end.

Definition DataFrame3 (ids : list Z) (boxes : list string) (scores : list Q)
  : result (list Out.row) :=
  if Nat.eqb (List.length ids) (List.length boxes)
     && Nat.eqb (List.length boxes) (List.length scores)
  then Ok (zip3 ids boxes scores)
  else Raise ValueError.

(** ** The index mapping *)

(** [input_df.set_index('image').T.to_dict('list')]: the transposed
    frame has one row, so each column (an image name) maps to a
    one-element list; a repeated column label overwrites. *)
Definition to_dict_list (input_df : list (Z * string))
  : PyDict.dict (list Z) :=
  PyDict.of_items (map (fun r => (snd r, [fst r])) input_df).

Definition list_Z_eqb (a b : list Z) : bool :=
  if list_eq_dec Z.eq_dec a b then true else false.

(** [v in l] where [l] holds lists and [None]. *)
Definition value_in (v : list Z) (l : list (option (list Z))) : bool :=
  existsb (fun e => match e with
                    | Some u => list_Z_eqb u v
                    | None => false
                    end) l.

(** [[item for sublist in l for item in sublist]] *)
Fixpoint flatten (l : list (option (list Z))) : result (list Z) :=
  match l with
  | [] => Ok []
  | None :: _ => Raise TypeError
  | Some sub :: l' => rest <- flatten l' ;; Ok (sub ++ rest)
  end.

(** ** [_fill_empty_predictions] *)

Fixpoint zip4 (ids : list Z) (names boxes : list string) (scores : list Q)
  : list Out.empty_row :=
  match ids, names, boxes, scores with
  | i :: ids', n :: names', b :: boxes', s :: scores' =>
      {| Out.e_d3mIndex := i; Out.e_image := n;
         Out.e_bounding_box := b; Out.e_confidence := s |}
      :: zip4 ids' names' boxes' scores'
  | _, _, _, _ => []
  end.

(** The module binds no global named [d3mIdx_image_mapping]: the name
    is a local of [produce].  [None] is the unbound name. *)
Definition d3mIdx_image_mapping : option (PyDict.dict (list Z)) := None.

(** The helper as it is written.  Its body names
    [d3mIdx_image_mapping] freely, so each key of the first
    comprehension looks the name up among the module's globals.  The
    function has no [return] of its own (the one of line 481 stands
    outside it, at class level): the frame is built and dropped, and
    the value of a call that ends is [None]. *)
Definition _fill_empty_predictions
           (empty_predictions_image_names : list string) : result unit :=
  empty_predictions_d3mIdx <-
    Pandas.mapM (fun key => match d3mIdx_image_mapping with
                            | Some mapping => Ok (PyDict.get mapping key)
                            | None => Raise NameError
                            end)
                empty_predictions_image_names ;;
  empty_predictions_d3mIdx <- flatten empty_predictions_d3mIdx ;;
  let n := List.length empty_predictions_d3mIdx in
  let bounding_box := List.repeat "0,0,0,0,0,0,0,0" n in
  let confidence := List.repeat (inject_Z 0) n in
  empty_predictions_df <-
    (if Nat.eqb n (List.length empty_predictions_image_names)
     then Ok (zip4 empty_predictions_d3mIdx empty_predictions_image_names
                   bounding_box confidence)
     else Raise ValueError) ;;
  Ok tt.

(** ** [produce] *)

Section Produce.

(** Reading, preprocessing and resizing an image, running the
    inference model on it and dividing the boxes by the scale. *)
Variable predict : string -> list Detection.

Definition detect_all (image_list : list string) : Lists :=
  fold_left (fun acc i => scan_detections i (predict i) acc)
            image_list no_lists.

Definition input_df (inputs : Inputs) : list (Z * string) :=
  combine (map d3mIndex (rows inputs))
          (map OsPath.basename (image_paths inputs)).

Definition empty_predictions (mapping : PyDict.dict (list Z))
           (d3mIdx : list (option (list Z))) : list string :=
  map fst (filter (fun kv => negb (value_in (snd kv) d3mIdx)) mapping).

(** From "Generate image paths" to the frame that is returned; the
    generator and the inference model built before and the column
    metadata set afterwards are left out.  With an image left
    without prediction the call on line 654 names
    [_fill_empty_predictions] bare; the name is an attribute of the
    class, not a global, and the lookup raises.  Line 658 builds the
    returned frame from [results]. *)
Definition produce (inputs : Inputs) : result (list Out.row) :=
  let image_list := first_occurrences (image_paths inputs) in
  let lists := detect_all image_list in
  let boxes := map box_string (box_list lists) in
  let image_name_list := map OsPath.basename (image_name_list lists) in
  let d3mIdx_image_mapping := to_dict_list (input_df inputs) in
  let d3mIdx := map (PyDict.get d3mIdx_image_mapping) image_name_list in
  let empty_predictions_image_names :=
    empty_predictions d3mIdx_image_mapping d3mIdx in
  d3mIdx <- flatten d3mIdx ;;
  results <- DataFrame3 d3mIdx boxes (score_list lists) ;;
  if Nat.eqb (List.length empty_predictions_image_names) 0
  then Ok results
  else Raise NameError.

End Produce.

(** ** Vocabulary of the statements *)

(** The detections of one image the loop reaches before its [break]. *)
Fixpoint accepted (dets : list Detection) : list Detection :=
  match dets with
  | [] => []
  | d :: dets' => if Qltb (score d) threshold then [] else d :: accepted dets'
  end.

(** The lists after the loop has appended the detections [ds] of
    image [i]. *)
Definition extend (i : string) (ds : list Detection) (acc : Lists) : Lists :=
  {| box_list := box_list acc ++ map (fun d => astype_int (box d)) ds;
     score_list := score_list acc ++ map score ds;
     image_name_list :=
       image_name_list acc ++ map (fun _ => PyStr.repeat i 4) ds |}.

(** All accepted detections, image after image. *)
Definition all_accepted (predict : string -> list Detection)
           (image_list : list string) : list (string * Detection) :=
  flat_map (fun i => map (pair i) (accepted (predict i))) image_list.

(** Number of distinct row identifiers of the input table. *)
Definition distinct_ids (inputs : Inputs) : nat :=
  List.length (nodup Z.eq_dec (map d3mIndex (rows inputs))).

(** The output row of one accepted detection filed under [id]. *)
Definition prediction_row (x : Z * (string * Detection)) : Out.row :=
  {| Out.d3mIndex := fst x;
     Out.bounding_box := box_string (astype_int (box (snd (snd x))));
     Out.confidence := score (snd (snd x)) |}.

(** The image name [produce] looks up for a detection of image [i]. *)
Definition lookup_name (i : string) : string :=
  OsPath.basename (PyStr.repeat i 4).

(** The name under which a row's image enters the index mapping. *)
Definition row_basename (inputs : Inputs) (r : Row) : string :=
  OsPath.basename (OsPath.join (base_dir inputs) (image r)).

(** The last row of the table whose image has basename [b]. *)
Definition last_row_named (inputs : Inputs) (b : string) : option Row :=
  find (fun r => String.eqb (row_basename inputs r) b) (rev (rows inputs)).

(** Token lists of the bounding-box column and the width of the frame
    [str.split] expands them to. *)
Definition box_tokens (inputs : Inputs) : list (list string) :=
  map (PyStr.split PyStr.comma) (map bounding_box (rows inputs)).

Definition box_width (inputs : Inputs) : nat :=
  Pandas.width (box_tokens inputs).

(** The annotation row of an input row once the frame is 8 wide. *)
Definition annotation_row (inputs : Inputs) (r : Row) : list Pandas.cell :=
  let t := Pandas.pad 8 (PyStr.split PyStr.comma (bounding_box r)) in
  [Some (OsPath.join (base_dir inputs) (image r));
   nth 0 t None; nth 1 t None; nth 4 t None; nth 3 t None;
   Some "class"].

(** The annotation row as the specification words it: positions 0 and
    1 of the 8 tokens as x1 and y1, positions 4 and 5 as x2 and y2. *)
Definition claimed_annotation_row (inputs : Inputs) (r : Row)
  : list Pandas.cell :=
  let t := PyStr.split PyStr.comma (bounding_box r) in
  [Some (OsPath.join (base_dir inputs) (image r));
   nth_error t 0; nth_error t 1; nth_error t 4; nth_error t 5;
   Some "class"].

(** ** Concrete tables and detectors *)

Definition mk_box (a b c d : Q) : Box Q :=
  {| c0 := a; c1 := b; c2 := c; c3 := d |}.

Definition mk_det (b : Box Q) (s : Q) : Detection :=
  {| box := b; score := s |}.

(** A prediction table under [/data/]: identifiers and file names. *)
Definition table (l : list (Z * string)) : Inputs :=
  {| base_dir := "/data/";
     rows := map (fun r => {| d3mIndex := fst r; image := snd r;
                              bounding_box := "" |}) l |}.

(** A detector given by its answers on the paths listed. *)
Fixpoint detector (answers : list (string * list Detection)) (i : string)
  : list Detection :=
  match answers with
  | [] => []
  | (p, ds) :: answers' =>
      if String.eqb p i then ds else detector answers' i
  end.

(** A training table under [/data/]: identifiers, file names and
    bounding-box fields. *)
Definition training_table (l : list (Z * string * string)) : Inputs :=
  {| base_dir := "/data/";
     rows := map (fun r => {| d3mIndex := fst (fst r); image := snd (fst r);
                              bounding_box := snd r |}) l |}.

(** One row whose eight tokens are pairwise different. *)
Definition skewed_table : Inputs :=
  training_table [(1%Z, "a.jpg", "0,1,2,3,4,5,6,7")].

(** A row of three tokens and a row of eight tokens that are no
    numbers. *)
Definition ragged_table : Inputs :=
  training_table [(1%Z, "a.jpg", "1,2,3"); (2%Z, "b.jpg", "a,b,c,d,e,f,g,h")].

(** A single row of three tokens. *)
Definition short_table : Inputs :=
  training_table [(1%Z, "a.jpg", "1,2,3")].

(** A row holding the box (10, 20, 30, 40) in the formatter's order. *)
Definition boxed_table : Inputs :=
  training_table [(1%Z, "a.jpg", "10,20,10,40,30,40,30,20")].

(** What [set_training_data] leaves for [skewed_table] and for
    [boxed_table]. *)
Definition skewed_training : TrainingData :=
  {| annotations :=
       {| Pandas.columns := annotation_names;
          Pandas.data :=
            [[Some "/data/a.jpg"; Some "0"; Some "1"; Some "4"; Some "3";
              Some "class"]] |};
     classes := [("class", 0%Z)] |}.

Definition boxed_training : TrainingData :=
  {| annotations :=
       {| Pandas.columns := annotation_names;
          Pandas.data :=
            [[Some "/data/a.jpg"; Some "10"; Some "20"; Some "30";
              Some "40"; Some "class"]] |};
     classes := [("class", 0%Z)] |}.

Definition out_row (id : Z) (b : string) (c : Q) : Out.row :=
  {| Out.d3mIndex := id; Out.bounding_box := b; Out.confidence := c |}.

(** One image with two detections above the threshold. *)
Definition one_image : Inputs := table [(1%Z, "a.jpg")].

Definition two_detections : string -> list Detection :=
  detector [("/data/a.jpg",
             [mk_det (mk_box 10 20 30 40) (9 # 10);
              mk_det (mk_box 1 2 3 4) (8 # 10)])].

(** A detector that finds nothing, and one whose only score is below
    the threshold. *)
Definition silent : string -> list Detection := detector [].

Definition faint : string -> list Detection :=
  detector [("/data/a.jpg", [mk_det (mk_box 10 20 30 40) (4999 # 10000)])].

(** The scenario of the specification: rows 1 and 2, one detection of
    confidence 0.9 for [a.jpg], none for [b.jpg]. *)
Definition scenario_inputs : Inputs := table [(1%Z, "a.jpg"); (2%Z, "b.jpg")].

Definition scenario_detector : string -> list Detection :=
  detector [("/data/a.jpg", [mk_det (mk_box 10 20 30 40) (9 # 10)])].

(** Two rows whose files share a basename in different directories,
    each image with one detection. *)
Definition twin_inputs : Inputs :=
  table [(1%Z, "d1/a.jpg"); (2%Z, "d2/a.jpg")].

Definition twin_detector : string -> list Detection :=
  detector [("/data/d1/a.jpg", [mk_det (mk_box 10 20 30 40) (9 # 10)]);
            ("/data/d2/a.jpg", [mk_det (mk_box 1 2 3 4) (8 # 10)])].

(** A detection at the threshold followed by one just below it and one
    above it. *)
Definition boundary_detector : string -> list Detection :=
  detector [("/data/a.jpg",
             [mk_det (mk_box 10 20 30 40) (1 # 2);
              mk_det (mk_box 1 2 3 4) (4999 # 10000);
              mk_det (mk_box 5 6 7 8) (9 # 10)])].

(** Fractional and negative coordinates. *)
Definition fractional_detector : string -> list Detection :=
  detector [("/data/a.jpg",
             [mk_det (mk_box (21 # 2) (-7 # 2) (30 # 1) (401 # 10))
                     (9 # 10)])].

(** ** Vocabulary of the further statements *)

(** The path of a row's image. *)
Definition row_path (inputs : Inputs) (r : Row) : string :=
  OsPath.join (base_dir inputs) (image r).

(** The output rows of one input row: its image's accepted detections
    under the row's identifier. *)
Definition rows_of (predict : string -> list Detection) (inputs : Inputs)
           (r : Row) : list Out.row :=
  map (fun d => {| Out.d3mIndex := d3mIndex r;
                   Out.bounding_box := box_string (astype_int (box d));
                   Out.confidence := score d |})
      (accepted (predict (row_path inputs r))).

(** Scores in non-increasing order. *)
Fixpoint descending (l : list Q) : Prop :=
  match l with
  | [] => True
  | x :: l' => Forall (fun y => (y <= x)%Q) l' /\ descending l'
  end.

(** [two_detections] with an answer for a second image. *)
Definition two_detections_more : string -> list Detection :=
  detector [("/data/b.jpg", [mk_det (mk_box 5 6 7 8) (7 # 10)]);
            ("/data/a.jpg",
             [mk_det (mk_box 10 20 30 40) (9 # 10);
              mk_det (mk_box 1 2 3 4) (8 # 10)])].

(** The accepted detections of the table, each with its row. *)
Definition accepted_rows (predict : string -> list Detection)
           (inputs : Inputs) : list (Row * Detection) :=
  flat_map (fun r => map (pair r) (accepted (predict (row_path inputs r))))
           (rows inputs).

(** Two rows with different image names in different directories, and
    detectors that answer for both images or for the first only. *)
Definition pair_inputs : Inputs :=
  table [(1%Z, "d1/a.jpg"); (2%Z, "d2/b.jpg")].

Definition pair_detector : string -> list Detection :=
  detector [("/data/d1/a.jpg", [mk_det (mk_box 10 20 30 40) (9 # 10)]);
            ("/data/d2/b.jpg", [mk_det (mk_box 1 2 3 4) (8 # 10)])].

Definition first_only_detector : string -> list Detection :=
  detector [("/data/d1/a.jpg", [mk_det (mk_box 10 20 30 40) (9 # 10)])].

(** The identifier the index mapping holds for the name [n]. *)
Definition last_id (inputs : Inputs) (n : string) : Z :=
  match last_row_named inputs n with
  | Some r => d3mIndex r
  | None => 0%Z
  end.

(** ** [get_params] and [set_params] *)

Module Instance.

(** The attributes reachable from an instance, by name; an assignment
    binds the name on the instance. *)
Definition attrs (V : Type) : Type := PyDict.dict V.

(** [return self._params]; [None] stands for the [AttributeError] of a
    name that is not bound. *)
Definition get_params {V} (self : attrs V) : option V :=
  PyDict.get self "_params".

(** [self.params = params] *)
Definition set_params {V} (self : attrs V) (params : V) : attrs V :=
  PyDict.set self "params" params.

End Instance.

(** ** [_get_detections] and [_get_annotations] *)

Module Eval.

(** [l[idx]] for a list of positions. *)
Definition take {A} (l : list A) (idx : list nat) : result (list A) :=
  Pandas.mapM (fun i => match nth_error l i with
                        | Some a => Ok a
                        | None => Raise IndexError
                        end) idx.

(** [l[i] = a] *)
Fixpoint assign {A} (l : list A) (i : nat) (a : A) : result (list A) :=
  match l, i with
  | [], _ => Raise IndexError
  | _ :: l', O => Ok (a :: l')
  | x :: l', S i' => l'' <- assign l' i' a ;; Ok (x :: l'')
  end.

(** What the network returns for one image: [boxes[0]] (divided by the
    scale), [scores[0]] and [labels[0]]. *)
Record Prediction : Type := {
  boxes : list (Box Q);
  scores : list Q;
  labels : list Z
}.

(** A row of [image_detections]: box, score, label. *)
Definition row : Type := (Box Q * Q * Z)%type.

Fixpoint concatenate (bs : list (Box Q)) (ss : list Q) (ls : list Z)
  : list row :=
  match bs, ss, ls with
  | b :: bs', s :: ss', l :: ls' => (b, s, l) :: concatenate bs' ss' ls'
  | _, _, _ => []
  end.

Section Image.

(** [np.argsort] *)
Variable argsort : list Q -> list nat.

(** The body of the loop up to [image_detections]. *)
Definition image_detections (p : Prediction) (score_threshold : Q)
           (max_detections : nat) : result (list row) :=
  let indices :=
    filter (fun j => Qltb score_threshold (nth j (scores p) 0))
           (seq 0 (List.length (scores p))) in
  scores' <- take (scores p) indices ;;
  let scores_sort := firstn max_detections (argsort (map Qopp scores')) in
  selected <- take indices scores_sort ;;
  image_boxes <- take (boxes p) selected ;;
  image_scores <- take scores' scores_sort ;;
  image_labels <- take (labels p) selected ;;
  Ok (concatenate image_boxes image_scores image_labels).

(** [image_detections[image_detections[:, -1] == label, :-1]] *)
Definition by_label (dets : list row) (label : nat) : list (Box Q * Q) :=
  map fst (filter (fun d => Z.eqb (snd d) (Z.of_nat label)) dets).

(** The loop over the labels, on the entry of one image. *)
Fixpoint assign_labels (has_label : nat -> bool) (dets : list row)
         (todo : list nat) (entry : list (option (list (Box Q * Q))))
  : result (list (option (list (Box Q * Q)))) :=
  match todo with
  | [] => Ok entry
  | label :: todo' =>
      if has_label label then
        entry' <- assign entry label (Some (by_label dets label)) ;;
        assign_labels has_label dets todo' entry'
      else assign_labels has_label dets todo' entry
  end.

(** [_get_detections]: the generator gives the number of classes and
    [has_label]; the network's answers stand for its images. *)
Definition _get_detections (num_classes : nat) (has_label : nat -> bool)
           (predictions : list Prediction) (score_threshold : Q)
           (max_detections : nat)
  : result (list (list (option (list (Box Q * Q))))) :=
  let entry :=
    map (fun _ => None) (filter has_label (seq 0 num_classes)) in
  Pandas.mapM
    (fun p =>
       dets <- image_detections p score_threshold max_detections ;;
       assign_labels has_label dets (seq 0 num_classes) entry)
    predictions.

End Image.

(** Ground-truth annotations of one image: [bboxes] and [labels]. *)
Record Annotations : Type := {
  bboxes : list (Box Q);
  a_labels : list Z
}.

(** [bboxes[labels == label, :]]: the mask must be as long as the
    array. *)
Definition mask_rows (a : Annotations) (label : nat)
  : result (list (Box Q)) :=
  if Nat.eqb (List.length (a_labels a)) (List.length (bboxes a))
  then Ok (map fst (filter (fun bl => Z.eqb (snd bl) (Z.of_nat label))
                           (combine (bboxes a) (a_labels a))))
  else Raise IndexError.

Fixpoint annotation_labels (has_label : nat -> bool) (a : Annotations)
         (todo : list nat) (entry : list (option (list (Box Q))))
  : result (list (option (list (Box Q)))) :=
  match todo with
  | [] => Ok entry
  | label :: todo' =>
      if has_label label then
        rows <- mask_rows a label ;;
        entry' <- assign entry label (Some rows) ;;
        annotation_labels has_label a todo' entry'
      else annotation_labels has_label a todo' entry
  end.

(** [_get_annotations]: the generator's annotations stand for its
    images. *)
Definition _get_annotations (num_classes : nat) (has_label : nat -> bool)
           (annotations : list Annotations)
  : result (list (list (option (list (Box Q))))) :=
  let entry := map (fun _ => None) (seq 0 num_classes) in
  Pandas.mapM
    (fun a => annotation_labels has_label a (seq 0 num_classes) entry)
    annotations.

End Eval.

(** The boxes of an image's annotations that carry [label]. *)
Definition boxes_with_label (a : Eval.Annotations) (label : nat)
  : list (Box Q) :=
  map fst (filter (fun bl => Z.eqb (snd bl) (Z.of_nat label))
                  (combine (Eval.bboxes a) (Eval.a_labels a))).

(** A stable [argsort] by insertion, for concrete runs. *)
Fixpoint insert_by (key : nat -> Q) (i : nat) (l : list nat) : list nat :=
  match l with
  | [] => [i]
  | j :: l' => if Qle_bool (key i) (key j) then i :: l
               else j :: insert_by key i l'
  end.

Definition stable_argsort (l : list Q) : list nat :=
  fold_right (insert_by (fun k => nth k l 0%Q)) [] (seq 0 (List.length l)).

(** Three candidate detections of one image: scores 0.3, 0.9 and 0.01,
    labels 0, 0 and 1. *)
Definition sample_prediction : Eval.Prediction :=
  {| Eval.boxes := [mk_box 1 2 3 4; mk_box 5 6 7 8; mk_box 9 10 11 12];
     Eval.scores := [3 # 10; 9 # 10; 1 # 100];
     Eval.labels := [0; 0; 1]%Z |}.

Definition sample_annotations : Eval.Annotations :=
  {| Eval.bboxes := [mk_box 1 2 3 4; mk_box 5 6 7 8];
     Eval.a_labels := [1; 0]%Z |}.

Example split_ex :
  PyStr.split PyStr.comma "1,2,,4" = ["1"; "2"; ""; "4"].
Proof. reflexivity. Qed.

Example split_empty_ex : PyStr.split PyStr.comma "" = [""].
Proof. reflexivity. Qed.

Example str_ex : map PyStr.str [0; 17; -305]%Z = ["0"; "17"; "-305"].
Proof. reflexivity. Qed.

Example basename_ex :
  OsPath.basename (PyStr.repeat "/data/a.jpg" 4) = "a.jpg"
  /\ OsPath.basename (PyStr.repeat "a.jpg" 4) = "a.jpga.jpga.jpga.jpg"
  /\ OsPath.join "/data" "a.jpg" = "/data/a.jpg"
  /\ OsPath.join "/data/" "a.jpg" = "/data/a.jpg"
  /\ OsPath.join "/data/" "/x/a.jpg" = "/x/a.jpg".
Proof. repeat split. Qed.


Unset Implicit Arguments.

(** ** Facts about strings *)

Section Split.

Variable sep : ascii.

Lemma split_token (t : string) :
  PyStr.mem sep t = false -> PyStr.split sep t = [t].
Proof.
  induction t as [|c t IH]; simpl; intros H; [reflexivity|].
  apply orb_false_iff in H as [Hc Ht].
  rewrite Hc, (IH Ht). reflexivity.
Qed.

Lemma split_app (t s : string) :
  PyStr.mem sep t = false ->
  PyStr.split sep (t ++ String sep s) = t :: PyStr.split sep s.
Proof.
  induction t as [|c t IH]; simpl; intros H.
  - rewrite Ascii.eqb_refl. reflexivity.
  - apply orb_false_iff in H as [Hc Ht].
    rewrite Hc, (IH Ht). reflexivity.
Qed.

Lemma join_cons (t u : string) (l : list string) :
  PyStr.join sep (t :: u :: l)
  = (t ++ String sep (PyStr.join sep (u :: l)))%string.
Proof. reflexivity. Qed.

Lemma split_join (l : list string) :
  l <> [] ->
  Forall (fun t => PyStr.mem sep t = false) l ->
  PyStr.split sep (PyStr.join sep l) = l.
Proof.
  induction l as [|t l IH]; intros Hne Hall; [congruence|].
  inversion Hall as [|? ? Ht Hl]; subst.
  destruct l as [|u l].
  - simpl. apply split_token, Ht.
  - rewrite join_cons, split_app by exact Ht.
    f_equal. apply IH; [discriminate | exact Hl].
Qed.

End Split.

Lemma digits_no_comma (d : Decimal.uint) :
  PyStr.mem PyStr.comma (NilEmpty.string_of_uint d) = false.
Proof.
  unfold PyStr.comma. induction d; cbn; auto.
Qed.

Lemma string_of_uint_no_comma (d : Decimal.uint) :
  PyStr.mem PyStr.comma (NilZero.string_of_uint d) = false.
Proof.
  destruct d; try apply digits_no_comma. reflexivity.
Qed.

Lemma str_no_comma (n : Z) : PyStr.mem PyStr.comma (PyStr.str n) = false.
Proof.
  unfold PyStr.str. destruct (Z.to_int n); simpl;
    apply string_of_uint_no_comma.
Qed.

Lemma split_join_str (l : list Z) :
  l <> [] ->
  PyStr.split PyStr.comma (join_str PyStr.str l) = map PyStr.str l.
Proof.
  intros Hne. unfold join_str. apply split_join.
  - destruct l; [congruence | discriminate].
  - apply Forall_forall. intros t Ht.
    apply in_map_iff in Ht as [z [<- _]]. apply str_no_comma.
Qed.

(** ** The detection loop *)

Lemma Qltb_lt (x y : Q) : Qltb x y = true <-> (x < y)%Q.
Proof.
  unfold Qltb. rewrite negb_true_iff.
  split; intros H.
  - apply Qnot_le_lt. intros Hle. apply Qle_bool_iff in Hle. congruence.
  - destruct (Qle_bool y x) eqn:E; [|reflexivity].
    apply Qle_bool_iff in E. exfalso. apply (Qlt_not_le _ _ H E).
Qed.

Lemma Qltb_ge (x y : Q) : Qltb x y = false <-> (y <= x)%Q.
Proof.
  unfold Qltb. rewrite negb_false_iff. apply Qle_bool_iff.
Qed.

Lemma extend_nil (i : string) (acc : Lists) : extend i [] acc = acc.
Proof.
  destruct acc. unfold extend. simpl. rewrite !app_nil_r. reflexivity.
Qed.

Lemma extend_cons (i : string) (d : Detection) (ds : list Detection)
      (acc : Lists) :
  extend i (d :: ds) acc = extend i ds (extend i [d] acc).
Proof.
  unfold extend. simpl. rewrite <- !app_assoc. reflexivity.
Qed.

(** The loop appends exactly the accepted detections. *)
Lemma scan_detections_accepted (i : string) (dets : list Detection) :
  forall acc, scan_detections i dets acc = extend i (accepted dets) acc.
Proof.
  induction dets as [|d dets IH]; intros acc; simpl.
  - symmetry. apply extend_nil.
  - destruct (Qltb (score d) threshold).
    + symmetry. apply extend_nil.
    + rewrite IH, (extend_cons i d). reflexivity.
Qed.

(** The accepted detections are the longest prefix at or above the
    threshold. *)
Lemma accepted_prefix (dets : list Detection) :
  exists rest,
    dets = accepted dets ++ rest
    /\ Forall (fun d => (threshold <= score d)%Q) (accepted dets)
    /\ match rest with
       | [] => True
       | d :: _ => (score d < threshold)%Q
       end.
Proof.
  induction dets as [|d dets [rest [Heq [Hall Hrest]]]]; simpl.
  - exists []. repeat split; constructor.
  - destruct (Qltb (score d) threshold) eqn:E.
    + exists (d :: dets). repeat split; [constructor|].
      apply Qltb_lt, E.
    + exists rest. repeat split.
      * simpl. f_equal. exact Heq.
      * constructor; [apply Qltb_ge, E | exact Hall].
      * exact Hrest.
Qed.

Section DetectAll.

Variable predict : string -> list Detection.

Lemma detect_all_from (l : list string) :
  forall acc,
    fold_left (fun acc i => scan_detections i (predict i) acc) l acc
    = {| box_list :=
           box_list acc
           ++ map (fun p => astype_int (box (snd p)))
                  (all_accepted predict l);
         score_list :=
           score_list acc
           ++ map (fun p => score (snd p)) (all_accepted predict l);
         image_name_list :=
           image_name_list acc
           ++ map (fun p => PyStr.repeat (fst p) 4)
                  (all_accepted predict l) |}.
Proof.
  induction l as [|i l IH]; intros acc; simpl.
  - destruct acc. simpl. rewrite !app_nil_r. reflexivity.
  - rewrite IH, scan_detections_accepted. unfold all_accepted. simpl.
    rewrite !map_app, !map_map, !app_assoc. reflexivity.
Qed.

Lemma detect_all_accepted (l : list string) :
  detect_all predict l
  = {| box_list :=
         map (fun p => astype_int (box (snd p))) (all_accepted predict l);
       score_list := map (fun p => score (snd p)) (all_accepted predict l);
       image_name_list :=
         map (fun p => PyStr.repeat (fst p) 4) (all_accepted predict l) |}.
Proof. unfold detect_all. rewrite detect_all_from. reflexivity. Qed.

End DetectAll.

(** ** The shape of what [produce] returns *)

Lemma zip3_map {A} (f : A -> string) (g : A -> Q) (l : list A) :
  forall ids,
    List.length ids = List.length l ->
    zip3 ids (map f l) (map g l)
    = map (fun x => {| Out.d3mIndex := fst x;
                       Out.bounding_box := f (snd x);
                       Out.confidence := g (snd x) |})
          (combine ids l).
Proof.
  induction l as [|a l IH]; intros [|i ids] H; simpl in *;
    try reflexivity; try discriminate.
  f_equal. apply IH. congruence.
Qed.

Lemma produce_ok_inv (predict : string -> list Detection) (inputs : Inputs)
      (out : list Out.row) :
  produce predict inputs = Ok out ->
  let acc := all_accepted predict (first_occurrences (image_paths inputs)) in
  let mapping := to_dict_list (input_df inputs) in
  let d3mIdx :=
    map (fun p => PyDict.get mapping (lookup_name (fst p))) acc in
  exists ids,
    flatten d3mIdx = Ok ids
    /\ List.length ids = List.length acc
    /\ out = map prediction_row (combine ids acc)
    /\ empty_predictions mapping d3mIdx = [].
Proof.
  intros H acc mapping d3mIdx.
  unfold produce in H. rewrite detect_all_accepted in H.
  cbn [box_list score_list image_name_list] in H.
  rewrite !map_map in H.
  fold acc mapping in H. fold (lookup_name) in H.
  change (map _ acc) with d3mIdx in H at 1.
  change (map _ acc) with d3mIdx in H at 3.
  destruct (flatten d3mIdx) as [ids|e] eqn:Hflat; simpl in H;
    [|discriminate].
  unfold DataFrame3 in H. rewrite !length_map in H.
  destruct (Nat.eqb (List.length ids) (List.length acc)) eqn:Hlen;
    simpl in H; [|discriminate].
  rewrite Nat.eqb_refl in H. simpl in H.
  apply Nat.eqb_eq in Hlen.
  destruct (Nat.eqb (List.length (empty_predictions mapping d3mIdx)) 0)
    eqn:Hempty; [|discriminate].
  apply Nat.eqb_eq, length_zero_iff_nil in Hempty.
  exists ids. repeat split; try assumption.
  inversion H as [Hout].
  rewrite (zip3_map (fun x => box_string (astype_int (box (snd x))))
                    (fun x => score (snd x)) acc ids Hlen).
  reflexivity.
Qed.

(** ** Dictionaries and the index mapping *)

Section DictFacts.

Context {V : Type}.

Lemma get_set (d : PyDict.dict V) (k k' : string) (v : V) :
  PyDict.get (PyDict.set d k v) k'
  = if String.eqb k k' then Some v else PyDict.get d k'.
Proof.
  induction d as [|[k0 v0] d IH]; simpl.
  - reflexivity.
  - destruct (String.eqb k0 k) eqn:E0; simpl.
    + apply String.eqb_eq in E0. subst k0.
      destruct (String.eqb k k'); reflexivity.
    + destruct (String.eqb k0 k') eqn:E1; [|exact IH].
      apply String.eqb_eq in E1. subst k0.
      rewrite String.eqb_sym, E0. reflexivity.
Qed.

Lemma of_items_snoc (l : list (string * V)) (k : string) (v : V) :
  PyDict.of_items (l ++ [(k, v)]) = PyDict.set (PyDict.of_items l) k v.
Proof. unfold PyDict.of_items. rewrite fold_left_app. reflexivity. Qed.

(** The last item of a key wins. *)
Lemma get_of_items (l : list (string * V)) (k : string) :
  PyDict.get (PyDict.of_items l) k
  = option_map snd (find (fun kv => String.eqb (fst kv) k) (rev l)).
Proof.
  induction l as [|[k0 v0] l IH] using rev_ind; [reflexivity|].
  rewrite of_items_snoc, get_set, rev_app_distr. simpl.
  destruct (String.eqb k0 k); [reflexivity | exact IH].
Qed.

Lemma get_In (d : PyDict.dict V) (k : string) (v : V) :
  PyDict.get d k = Some v -> In (k, v) d.
Proof.
  induction d as [|[k0 v0] d IH]; simpl; [discriminate|].
  destruct (String.eqb k0 k) eqn:E; intros H.
  - apply String.eqb_eq in E. left. congruence.
  - right. apply IH, H.
Qed.

End DictFacts.

Lemma find_map {A B} (f : A -> B) (p : B -> bool) (l : list A) :
  find p (map f l) = option_map f (find (fun a => p (f a)) l).
Proof.
  induction l as [|a l IH]; simpl; [reflexivity|].
  destruct (p (f a)); [reflexivity | exact IH].
Qed.

Lemma combine_map {A B C} (f : A -> B) (g : A -> C) (l : list A) :
  combine (map f l) (map g l) = map (fun a => (f a, g a)) l.
Proof. induction l; simpl; congruence. Qed.

Lemma input_df_rows (inputs : Inputs) :
  input_df inputs
  = map (fun r => (d3mIndex r, row_basename inputs r)) (rows inputs).
Proof.
  unfold input_df, image_paths. rewrite map_map. apply combine_map.
Qed.

(** Each basename is mapped to the one-element list holding the
    identifier of the last row that has it. *)
Lemma mapping_get (inputs : Inputs) (b : string) :
  PyDict.get (to_dict_list (input_df inputs)) b
  = option_map (fun r => [d3mIndex r]) (last_row_named inputs b).
Proof.
  unfold to_dict_list, last_row_named.
  rewrite get_of_items, input_df_rows, map_map, <- map_rev, find_map.
  simpl. destruct (find _ (rev (rows inputs))); reflexivity.
Qed.

Lemma flatten_In (l : list (option (list Z))) :
  forall ids,
    flatten l = Ok ids ->
    forall x, In x ids <-> exists u, In (Some u) l /\ In x u.
Proof.
  induction l as [|[u|] l IH]; simpl; intros ids H x.
  - inversion H. simpl. split; [tauto | intros [? [[] _]]].
  - destruct (flatten l) as [rest|] eqn:E; simpl in H; [|discriminate].
    inversion H. subst ids. rewrite in_app_iff, (IH rest eq_refl x).
    split.
    + intros [Hx | [w [Hw Hx]]]; [exists u | exists w]; auto.
    + intros [w [[Hw | Hw] Hx]].
      * left. congruence.
      * right. exists w. auto.
  - discriminate.
Qed.

Lemma value_in_In (v : list Z) (l : list (option (list Z))) :
  value_in v l = true <-> In (Some v) l.
Proof.
  unfold value_in, list_Z_eqb. rewrite existsb_exists. split.
  - intros [[u|] [Hin H]]; [|discriminate].
    destruct (list_eq_dec Z.eq_dec u v); [subst; exact Hin | discriminate].
  - intros Hin. exists (Some v). split; [exact Hin|].
    destruct (list_eq_dec Z.eq_dec v v); congruence.
Qed.

Lemma map_fst_combine {A B} (l : list A) :
  forall l' : list B,
    List.length l = List.length l' -> map fst (combine l l') = l.
Proof.
  induction l as [|a l IH]; intros [|b l'] H; simpl in *;
    try reflexivity; try discriminate.
  f_equal. apply IH. congruence.
Qed.

(** ** What [produce] returns *)

Lemma first_occurrences_incl (l : list string) (x : string) :
  In x (first_occurrences l) -> In x l.
Proof.
  unfold first_occurrences, enumerate. intros H.
  apply in_map_iff in H as [[n y] [Hy Hin]]. simpl in Hy. subst y.
  apply filter_In in Hin as [Hin _].
  apply in_combine_r in Hin. exact Hin.
Qed.

Lemma all_accepted_In (predict : string -> list Detection)
      (l : list string) (i : string) (d : Detection) :
  In (i, d) (all_accepted predict l) <-> In i l /\ In d (accepted (predict i)).
Proof.
  unfold all_accepted. rewrite in_flat_map. split.
  - intros [j [Hj Hin]]. apply in_map_iff in Hin as [e [He Hin]].
    inversion He. subst. auto.
  - intros [Hi Hd]. exists i. split; [exact Hi|].
    apply in_map_iff. exists d. auto.
Qed.

(** Every returned row is the row of an accepted detection of an image
    of the table. *)
Lemma produce_rows_accepted (predict : string -> list Detection)
      (inputs : Inputs) (out : list Out.row) :
  produce predict inputs = Ok out ->
  Forall (fun o => exists id i d,
              In i (image_paths inputs)
              /\ In d (accepted (predict i))
              /\ o = prediction_row (id, (i, d))) out.
Proof.
  intros H. destruct (produce_ok_inv _ _ _ H) as [ids [_ [_ [Hout _]]]].
  subst out. apply Forall_forall. intros o Ho.
  apply in_map_iff in Ho as [[id [i d]] [<- Hin]].
  apply in_combine_r in Hin. apply all_accepted_In in Hin as [Hi Hd].
  exists id, i, d. repeat split; [|exact Hd].
  apply first_occurrences_incl, Hi.
Qed.

(** No returned row is below the threshold: a row of confidence 0.0 is
    never returned. *)
Lemma produce_confidence (predict : string -> list Detection)
      (inputs : Inputs) (out : list Out.row) :
  produce predict inputs = Ok out ->
  Forall (fun o => (threshold <= Out.confidence o)%Q) out.
Proof.
  intros H. apply produce_rows_accepted in H.
  eapply Forall_impl; [|exact H]. simpl.
  intros o [id [i [d [_ [Hd ->]]]]]. simpl.
  destruct (accepted_prefix (predict i)) as [rest [_ [Hall _]]].
  rewrite Forall_forall in Hall. apply Hall, Hd.
Qed.

(** ** The annotation builder *)

Lemma width_ge (toks : list (list string)) (t : list string) :
  In t toks -> (List.length t <= Pandas.width toks)%nat.
Proof.
  induction toks as [|u toks IH]; simpl; [tauto|].
  intros [-> | H]; [lia|]. specialize (IH H). lia.
Qed.

Lemma pad_length (w : nat) (t : list string) :
  (List.length t <= w)%nat -> List.length (Pandas.pad w t) = w.
Proof.
  intros H. unfold Pandas.pad.
  rewrite length_app, length_map, repeat_length. lia.
Qed.

Lemma concat3_map {A} (f h : A -> Pandas.cell) (g : A -> list Pandas.cell)
      (l : list A) :
  Pandas.concat3 (map f l) (map g l) (map h l)
  = map (fun a => f a :: g a ++ [h a]) l.
Proof. induction l; simpl; congruence. Qed.

Lemma repeat_const {A B} (c : B) (l : list A) :
  List.repeat c (List.length l) = map (fun _ => c) l.
Proof. induction l; simpl; congruence. Qed.

Lemma set_training_data_short (inputs : Inputs) :
  (box_width inputs < 8)%nat ->
  set_training_data inputs = Raise IndexError.
Proof.
  unfold set_training_data, Pandas.str_split_expand.
  fold (box_tokens inputs). fold (box_width inputs).
  intros H.
  destruct (box_width inputs) as [|[|[|[|[|[|[|[|w]]]]]]]];
    try reflexivity.
  lia.
Qed.

Lemma set_training_data_long (inputs : Inputs) :
  (8 < box_width inputs)%nat ->
  set_training_data inputs = Raise ValueError.
Proof.
  unfold set_training_data, Pandas.str_split_expand.
  fold (box_tokens inputs). fold (box_width inputs).
  intros H.
  destruct (box_width inputs) as [|[|[|[|[|[|[|[|[|w]]]]]]]]]; try lia.
  reflexivity.
Qed.

Lemma set_training_data_exact (inputs : Inputs) :
  box_width inputs = 8%nat ->
  set_training_data inputs
  = Ok {| annotations :=
            {| Pandas.columns := annotation_names;
               Pandas.data := map (annotation_row inputs) (rows inputs) |};
          classes := [("class", 0%Z)] |}.
Proof.
  unfold set_training_data, Pandas.str_split_expand.
  fold (box_tokens inputs). fold (box_width inputs).
  intros H. rewrite H. cbn -[Pandas.pad Pandas.keep_where nth].
  do 2 f_equal. f_equal.
  unfold box_tokens, image_paths.
  rewrite !map_map, repeat_const, map_map.
  rewrite concat3_map. apply map_ext_in. intros r Hr.
  assert (Hlen : List.length
                   (Pandas.pad 8 (PyStr.split PyStr.comma (bounding_box r)))
                 = 8%nat).
  { apply pad_length. rewrite <- H. apply width_ge.
    unfold box_tokens. rewrite map_map.
    apply in_map_iff. exists r. auto. }
  unfold annotation_row.
  generalize dependent
    (Pandas.pad 8 (PyStr.split PyStr.comma (bounding_box r))).
  intros p Hp.
  destruct p as [|a0 [|a1 [|a2 [|a3 [|a4 [|a5 [|a6 [|a7 [|a8 p]]]]]]]]];
    simpl in Hp; try discriminate.
  reflexivity.
Qed.

Lemma set_training_data_ok_width (inputs : Inputs) (td : TrainingData) :
  set_training_data inputs = Ok td -> box_width inputs = 8%nat.
Proof.
  intros H.
  destruct (Nat.lt_total (box_width inputs) 8) as [Hlt | [Heq | Hgt]].
  - rewrite (set_training_data_short inputs Hlt) in H. discriminate.
  - exact Heq.
  - rewrite (set_training_data_long inputs Hgt) in H. discriminate.
Qed.

Lemma set_training_data_row (inputs : Inputs) (td : TrainingData)
      (n : nat) (r : Row) :
  set_training_data inputs = Ok td ->
  nth_error (rows inputs) n = Some r ->
  nth_error (Pandas.data (annotations td)) n
  = Some (annotation_row inputs r).
Proof.
  intros H Hr.
  rewrite (set_training_data_exact inputs
             (set_training_data_ok_width inputs td H))
    in H.
  inversion H. simpl. apply map_nth_error, Hr.
Qed.

(** C2, as stated, fails: on a row whose tokens are 0 to 7 the builder
    stores y2 = 3 (position 3), where positions 4 and 5 would give
    y2 = 5. *)
Lemma annotation_positions_counterexample :
  PyStr.split PyStr.comma "0,1,2,3,4,5,6,7"
  = ["0"; "1"; "2"; "3"; "4"; "5"; "6"; "7"]
  /\ set_training_data skewed_table = Ok skewed_training
  /\ Pandas.data (annotations skewed_training)
     = [[Some "/data/a.jpg"; Some "0"; Some "1"; Some "4"; Some "3";
         Some "class"]]
  /\ map (claimed_annotation_row skewed_table) (rows skewed_table)
     = [[Some "/data/a.jpg"; Some "0"; Some "1"; Some "4"; Some "5";
         Some "class"]]
  /\ ~ (forall td, set_training_data skewed_table = Ok td ->
                   Pandas.data (annotations td)
                   = map (claimed_annotation_row skewed_table)
                         (rows skewed_table)).
Proof.
  repeat split. intros H.
  specialize (H _ eq_refl). discriminate H.
Qed.

(** C2, amended: when [set_training_data] succeeds, a row whose field
    splits into 8 tokens gets x1 and y1 from positions 0 and 1, x2 from
    position 4 and y2 from position 3; positions 2, 5, 6 and 7 are
    discarded. *)
Theorem annotation_box_positions (inputs : Inputs) (td : TrainingData)
        (n : nat) (r : Row) (t0 t1 t2 t3 t4 t5 t6 t7 : string) :
  set_training_data inputs = Ok td ->
  nth_error (rows inputs) n = Some r ->
  PyStr.split PyStr.comma (bounding_box r) = [t0; t1; t2; t3; t4; t5; t6; t7] ->
  nth_error (Pandas.data (annotations td)) n
  = Some [Some (OsPath.join (base_dir inputs) (image r));
          Some t0; Some t1; Some t4; Some t3; Some "class"].
Proof.
  intros H Hr Ht. rewrite (set_training_data_row inputs td n r H Hr).
  unfold annotation_row. rewrite Ht. reflexivity.
Qed.

Lemma annotation_box_positions_witness :
  set_training_data skewed_table = Ok skewed_training
  /\ nth_error (Pandas.data (annotations skewed_training)) 0
     = Some [Some "/data/a.jpg"; Some "0"; Some "1"; Some "4"; Some "3";
             Some "class"].
Proof.
  split; [reflexivity|].
  exact (annotation_box_positions skewed_table skewed_training 0%nat
           {| d3mIndex := 1; image := "a.jpg";
              bounding_box := "0,1,2,3,4,5,6,7" |}
           "0" "1" "2" "3" "4" "5" "6" "7" eq_refl eq_refl eq_refl).
Defined.

(** C9, as stated, fails: a table with a three-token field and a field
    of eight tokens that are no numbers is accepted, and a table whose
    only field has three tokens fails with [IndexError]. *)
Lemma malformed_box_counterexample :
  List.length (PyStr.split PyStr.comma "1,2,3") <> 8%nat
  /\ set_training_data ragged_table
     = Ok {| annotations :=
               {| Pandas.columns := annotation_names;
                  Pandas.data :=
                    [[Some "/data/a.jpg"; Some "1"; Some "2"; None; None;
                      Some "class"];
                     [Some "/data/b.jpg"; Some "a"; Some "b"; Some "e";
                      Some "d"; Some "class"]] |};
             classes := [("class", 0%Z)] |}
  /\ set_training_data short_table = Raise IndexError.
Proof. repeat split. discriminate. Qed.

(** C9, amended: [set_training_data] looks only at the number of tokens
    of the longest bounding-box field.  Under 8 it fails with
    [IndexError], over 8 with [ValueError]; at 8 it succeeds and keeps
    one annotation row per input row, shorter fields padded with
    missing values and tokens stored unparsed. *)
Theorem set_training_data_outcome (inputs : Inputs) :
  ((box_width inputs < 8)%nat
   /\ set_training_data inputs = Raise IndexError)
  \/ ((8 < box_width inputs)%nat
      /\ set_training_data inputs = Raise ValueError)
  \/ (box_width inputs = 8%nat
      /\ set_training_data inputs
         = Ok {| annotations :=
                   {| Pandas.columns := annotation_names;
                      Pandas.data :=
                        map (annotation_row inputs) (rows inputs) |};
                 classes := [("class", 0%Z)] |}).
Proof.
  destruct (Nat.lt_total (box_width inputs) 8) as [Hlt | [Heq | Hgt]].
  - left. split; [exact Hlt | apply set_training_data_short, Hlt].
  - right. right. split; [exact Heq | apply set_training_data_exact, Heq].
  - right. left. split; [exact Hgt | apply set_training_data_long, Hgt].
Qed.



(** ** Claims about [produce] *)

(** C1, as stated, fails: one row whose image has two detections above
    the threshold gives two output rows for one identifier. *)
Lemma row_count_counterexample :
  produce two_detections one_image
  = Ok [out_row 1 "10,20,10,40,30,40,30,20" (9 # 10);
        out_row 1 "1,2,1,4,3,4,3,2" (8 # 10)]
  /\ distinct_ids one_image = 1%nat
  /\ ~ (forall out, produce two_detections one_image = Ok out ->
                    List.length out = distinct_ids one_image).
Proof.
  repeat split. intros H. specialize (H _ eq_refl). discriminate H.
Qed.

Lemma NoDup_map_eq {A B} (f : A -> B) (l : list A) (a b : A) :
  NoDup (map f l) -> In a l -> In b l -> f a = f b -> a = b.
Proof.
  induction l as [|x l IH]; simpl; intros Hnd Ha Hb Hf; [tauto|].
  inversion Hnd as [|? ? Hx Hl]; subst.
  destruct Ha as [-> | Ha], Hb as [-> | Hb]; auto.
  - exfalso. apply Hx. rewrite Hf. apply in_map, Hb.
  - exfalso. apply Hx. rewrite <- Hf. apply in_map, Ha.
Qed.

Lemma filter_nil_false {A} (f : A -> bool) (l : list A) :
  filter f l = [] -> forall x, In x l -> f x = false.
Proof.
  intros H x Hx. destruct (f x) eqn:E; [|reflexivity].
  assert (Hin : In x (filter f l)) by (apply filter_In; auto).
  rewrite H in Hin. destruct Hin.
Qed.

Lemma last_row_named_unique (inputs : Inputs) (r : Row) :
  NoDup (map (row_basename inputs) (rows inputs)) ->
  In r (rows inputs) ->
  last_row_named inputs (row_basename inputs r) = Some r.
Proof.
  intros Hnd Hr. unfold last_row_named.
  destruct (find _ (rev (rows inputs))) as [r'|] eqn:E.
  - apply find_some in E as [Hin Heq].
    apply in_rev in Hin. apply String.eqb_eq in Heq.
    f_equal. exact (NoDup_map_eq _ _ _ _ Hnd Hin Hr Heq).
  - apply in_rev in Hr. apply (find_none _ _ E r) in Hr.
    rewrite String.eqb_refl in Hr. discriminate.
Qed.

Lemma produce_ids (predict : string -> list Detection) (inputs : Inputs)
      (out : list Out.row) :
  produce predict inputs = Ok out ->
  let acc := all_accepted predict (first_occurrences (image_paths inputs)) in
  let mapping := to_dict_list (input_df inputs) in
  let d3mIdx :=
    map (fun p => PyDict.get mapping (lookup_name (fst p))) acc in
  flatten d3mIdx = Ok (map Out.d3mIndex out)
  /\ List.length out = List.length acc
  /\ empty_predictions mapping d3mIdx = [].
Proof.
  intros H acc mapping d3mIdx.
  destruct (produce_ok_inv _ _ _ H) as [ids [Hflat [Hlen [Hout Hempty]]]].
  fold acc mapping d3mIdx in Hflat, Hempty. fold acc in Hlen, Hout.
  subst out. rewrite map_map. simpl.
  change (map (fun x => fst x) (combine ids acc))
    with (map fst (combine ids acc)).
  rewrite (map_fst_combine ids acc Hlen), length_map, length_combine, Hlen.
  repeat split; [exact Hflat | apply Nat.min_id | exact Hempty].
Qed.

(** C1, amended: a table [produce] returns has one row per accepted
    detection of the table's distinct image paths; when the rows have
    pairwise distinct image basenames, every identifier occurs in it,
    so it has at least as many rows as the table has distinct
    identifiers. *)
Theorem produce_row_count (predict : string -> list Detection)
        (inputs : Inputs) (out : list Out.row) :
  produce predict inputs = Ok out ->
  List.length out
  = List.length
      (all_accepted predict (first_occurrences (image_paths inputs)))
  /\ (NoDup (map (row_basename inputs) (rows inputs)) ->
      (forall r, In r (rows inputs) ->
                 In (d3mIndex r) (map Out.d3mIndex out))
      /\ (distinct_ids inputs <= List.length out)%nat).
Proof.
  intros H. destruct (produce_ids _ _ _ H) as [Hflat [Hlen Hempty]].
  split; [exact Hlen|]. intros Hnd.
  assert (Hall : forall r, In r (rows inputs) ->
                           In (d3mIndex r) (map Out.d3mIndex out)).
  { intros r Hr.
    apply (flatten_In _ _ Hflat). exists [d3mIndex r].
    split; [|left; reflexivity].
    apply value_in_In.
    pose proof (mapping_get inputs (row_basename inputs r)) as Hget.
    rewrite (last_row_named_unique inputs r Hnd Hr) in Hget.
    apply get_In in Hget.
    unfold empty_predictions in Hempty. apply map_eq_nil in Hempty.
    apply (filter_nil_false _ _ Hempty) in Hget.
    apply negb_false_iff in Hget. exact Hget. }
  split; [exact Hall|].
  unfold distinct_ids.
  rewrite <- (length_map Out.d3mIndex out).
  apply NoDup_incl_length; [apply NoDup_nodup|].
  intros x Hx. apply nodup_In in Hx.
  apply in_map_iff in Hx as [r [<- Hr]]. apply Hall, Hr.
Qed.

Lemma produce_row_count_witness :
  produce two_detections one_image
  = Ok [out_row 1 "10,20,10,40,30,40,30,20" (9 # 10);
        out_row 1 "1,2,1,4,3,4,3,2" (8 # 10)]
  /\ NoDup (map (row_basename one_image) (rows one_image))
  /\ (1 <= 2)%nat.
Proof.
  assert (Hnd : NoDup (map (row_basename one_image) (rows one_image))).
  { repeat constructor. simpl. tauto. }
  split; [reflexivity|]. split; [exact Hnd|].
  exact (proj2 (proj2 (produce_row_count two_detections one_image _ eq_refl)
                      Hnd)).
Defined.

(** C4, as stated, fails: for two rows whose files are both named
    [a.jpg] the mapping answers with the second identifier alone, and
    the detections of both images are returned under it; identifier 1
    is in no row, identifier 2 in two. *)
Lemma duplicate_basename_counterexample :
  map (row_basename twin_inputs) (rows twin_inputs) = ["a.jpg"; "a.jpg"]
  /\ PyDict.get (to_dict_list (input_df twin_inputs)) "a.jpg" = Some [2%Z]
  /\ produce twin_detector twin_inputs
     = Ok [out_row 2 "10,20,10,40,30,40,30,20" (9 # 10);
           out_row 2 "1,2,1,4,3,4,3,2" (8 # 10)]
  /\ ~ (exists out,
          produce twin_detector twin_inputs = Ok out
          /\ count_occ Z.eq_dec (map Out.d3mIndex out) 1%Z = 1%nat
          /\ count_occ Z.eq_dec (map Out.d3mIndex out) 2%Z = 1%nat).
Proof.
  repeat split. intros [out [H [H1 _]]].
  inversion H. subst out. discriminate H1.
Qed.

(** C5: in the loop over one image's detections a score of exactly 0.5
    is appended and the loop goes on, a score of 0.4999 ends the loop
    with nothing appended, and in general the loop appends the
    detections before the first score below 0.5 and no other; on a
    one-image table the detection at 0.5 is returned and those after
    the 0.4999 one are not. *)
Theorem threshold_boundary :
  (forall i b rest acc,
      scan_detections i (mk_det b (1 # 2) :: rest) acc
      = scan_detections i rest
          {| box_list := box_list acc ++ [astype_int b];
             score_list := score_list acc ++ [1 # 2];
             image_name_list := image_name_list acc ++ [PyStr.repeat i 4] |})
  /\ (forall i b rest acc,
         scan_detections i (mk_det b (4999 # 10000) :: rest) acc = acc)
  /\ (forall i dets acc,
         exists rest,
           dets = accepted dets ++ rest
           /\ Forall (fun d => (1 # 2 <= score d)%Q) (accepted dets)
           /\ match rest with
              | [] => True
              | d :: _ => (score d < 1 # 2)%Q
              end
           /\ scan_detections i dets acc = extend i (accepted dets) acc)
  /\ produce boundary_detector one_image
     = Ok [out_row 1 "10,20,10,40,30,40,30,20" (1 # 2)].
Proof.
  split; [|split; [|split]]; try reflexivity.
  intros i dets acc.
  destruct (accepted_prefix dets) as [rest [Heq [Hall Hrest]]].
  exists rest. repeat split; try assumption.
  apply scan_detections_accepted.
Qed.

(** C8: the formatter writes the box (x1, y1, x2, y2) as
    x1,y1,x1,y2,x2,y2,x2,y1, and every row [produce] returns holds this
    string for the truncated box of an accepted detection. *)
Theorem box_string_corner_order (predict : string -> list Detection)
        (inputs : Inputs) :
  (forall x1 y1 x2 y2 : Z,
      box_string {| c0 := x1; c1 := y1; c2 := x2; c3 := y2 |}
      = (PyStr.str x1 ++ "," ++ PyStr.str y1 ++ ","
         ++ PyStr.str x1 ++ "," ++ PyStr.str y2 ++ ","
         ++ PyStr.str x2 ++ "," ++ PyStr.str y2 ++ ","
         ++ PyStr.str x2 ++ "," ++ PyStr.str y1)%string)
  /\ (forall out,
         produce predict inputs = Ok out ->
         Forall (fun o => exists i d,
                     In i (image_paths inputs)
                     /\ In d (accepted (predict i))
                     /\ Out.bounding_box o
                        = box_string
                            {| c0 := Qtruncate (c0 (box d));
                               c1 := Qtruncate (c1 (box d));
                               c2 := Qtruncate (c2 (box d));
                               c3 := Qtruncate (c3 (box d)) |}) out).
Proof.
  split; [reflexivity|].
  intros out H. apply produce_rows_accepted in H.
  eapply Forall_impl; [|exact H]. simpl.
  intros o [id [i [d [Hi [Hd ->]]]]]. exists i, d. auto.
Qed.

Lemma box_string_corner_order_witness :
  produce fractional_detector one_image
  = Ok [out_row 1 "10,-3,10,40,30,40,30,-3" (9 # 10)]
  /\ Forall (fun o => exists i d,
                 In i (image_paths one_image)
                 /\ In d (accepted (fractional_detector i))
                 /\ Out.bounding_box o
                    = box_string
                        {| c0 := Qtruncate (c0 (box d));
                           c1 := Qtruncate (c1 (box d));
                           c2 := Qtruncate (c2 (box d));
                           c3 := Qtruncate (c3 (box d)) |})
            [out_row 1 "10,-3,10,40,30,40,30,-3" (9 # 10)].
Proof.
  split; [reflexivity|].
  exact (proj2 (box_string_corner_order fractional_detector one_image)
               _ eq_refl).
Defined.

(** C10: the coordinates of an accepted detection are truncated to
    integers before they are written: the bounding box of every row
    [produce] returns splits at the commas into 8 tokens, each the
    decimal rendering of the truncation of a coordinate the detector
    returned. *)
Theorem produce_boxes_are_integers (predict : string -> list Detection)
        (inputs : Inputs) (out : list Out.row) :
  produce predict inputs = Ok out ->
  Forall (fun o => exists i d,
              In i (image_paths inputs)
              /\ In d (accepted (predict i))
              /\ PyStr.split PyStr.comma (Out.bounding_box o)
                 = map PyStr.str
                       [Qtruncate (c0 (box d)); Qtruncate (c1 (box d));
                        Qtruncate (c0 (box d)); Qtruncate (c3 (box d));
                        Qtruncate (c2 (box d)); Qtruncate (c3 (box d));
                        Qtruncate (c2 (box d)); Qtruncate (c1 (box d))]) out.
Proof.
  intros H. apply produce_rows_accepted in H.
  eapply Forall_impl; [|exact H]. simpl.
  intros o [id [i [d [Hi [Hd ->]]]]]. exists i, d.
  repeat split; try assumption.
  unfold prediction_row, box_string. cbn [Out.bounding_box snd].
  rewrite split_join_str by discriminate. reflexivity.
Qed.

Lemma produce_boxes_are_integers_witness :
  produce fractional_detector one_image
  = Ok [out_row 1 "10,-3,10,40,30,40,30,-3" (9 # 10)]
  /\ Forall (fun o => exists i d,
                 In i (image_paths one_image)
                 /\ In d (accepted (fractional_detector i))
                 /\ PyStr.split PyStr.comma (Out.bounding_box o)
                    = map PyStr.str
                          [Qtruncate (c0 (box d)); Qtruncate (c1 (box d));
                           Qtruncate (c0 (box d)); Qtruncate (c3 (box d));
                           Qtruncate (c2 (box d)); Qtruncate (c3 (box d));
                           Qtruncate (c2 (box d)); Qtruncate (c1 (box d))])
            [out_row 1 "10,-3,10,40,30,40,30,-3" (9 # 10)].
Proof.
  split; [reflexivity|].
  exact (produce_boxes_are_integers fractional_detector one_image _ eq_refl).
Defined.

(** C3: the code does not do what the claim says.  On a row whose image
    has no detection at or above 0.5 (none at all, or one at 0.4999)
    [produce] raises [NameError] and returns no table, so no
    placeholder row for the row's identifier is returned. *)
Theorem placeholder_missing :
  produce silent one_image = Raise NameError
  /\ produce faint one_image = Raise NameError.
Proof. split; reflexivity. Qed.

(** C7: the code does not do what the claim says.  On the scenario of
    the specification (rows 1 and 2, one detection at 0.9 for [a.jpg],
    none for [b.jpg]) [produce] raises [NameError] where the claim
    expects the row of identifier 1 followed by the placeholder of
    identifier 2. *)
Theorem scenario_raises :
  produce scenario_detector scenario_inputs = Raise NameError.
Proof. reflexivity. Qed.

(** ** More on strings and paths *)

Lemma string_app_assoc (a b c : string) :
  ((a ++ b) ++ c = a ++ (b ++ c))%string.
Proof. induction a as [|x a IH]; simpl; [reflexivity | rewrite IH; reflexivity]. Qed.

Lemma string_app_nil_r (a : string) : (a ++ "" = a)%string.
Proof. induction a as [|x a IH]; simpl; [reflexivity | rewrite IH; reflexivity]. Qed.

Lemma string_length_app (a b : string) :
  String.length (a ++ b) = (String.length a + String.length b)%nat.
Proof. induction a as [|x a IH]; simpl; [reflexivity | rewrite IH; reflexivity]. Qed.

Lemma split_cons (sep : ascii) (s : string) :
  exists t ts, PyStr.split sep s = t :: ts.
Proof.
  destruct s as [|c s]; simpl; [eauto|].
  destruct (Ascii.eqb c sep); [eauto|].
  destruct (PyStr.split sep s); eauto.
Qed.

Lemma split_app_two (sep : ascii) (a b : string) :
  exists t u ts, PyStr.split sep (a ++ String sep b) = t :: u :: ts.
Proof.
  induction a as [|c a [t [u [ts IH]]]]; simpl.
  - rewrite Ascii.eqb_refl.
    destruct (split_cons sep b) as [u [ts ->]]. eauto.
  - rewrite IH. destruct (Ascii.eqb c sep); eauto.
Qed.

(** What follows the last separator is found in what follows any
    separator. *)
Lemma last_split_app (sep : ascii) (a b d : string) :
  last (PyStr.split sep (a ++ String sep b)) d = last (PyStr.split sep b) d.
Proof.
  induction a as [|c a IH]; simpl.
  - rewrite Ascii.eqb_refl.
    destruct (split_cons sep b) as [u [ts ->]]. reflexivity.
  - destruct (split_app_two sep a b) as [t [u [ts E]]].
    rewrite E in IH |- *.
    destruct (Ascii.eqb c sep); exact IH.
Qed.

Lemma mem_split (c : ascii) (p : string) :
  PyStr.mem c p = true -> exists a b, p = (a ++ String c b)%string.
Proof.
  induction p as [|x p IH]; simpl; [discriminate|].
  destruct (Ascii.eqb x c) eqn:E; simpl.
  - intros _. apply Ascii.eqb_eq in E. subst x. exists "", p. reflexivity.
  - intros H. destruct (IH H) as [a [b ->]]. exists (String x a), b.
    reflexivity.
Qed.

Lemma mem_app (c : ascii) (a b : string) :
  PyStr.mem c (a ++ b) = PyStr.mem c a || PyStr.mem c b.
Proof.
  induction a as [|x a IH]; simpl; [reflexivity|].
  rewrite IH, orb_assoc. reflexivity.
Qed.

Lemma endswith_app (c : ascii) (a : string) :
  PyStr.endswith a c = true -> exists a0, a = (a0 ++ String c "")%string.
Proof.
  induction a as [|x a IH]; [discriminate|].
  destruct a as [|y a].
  - simpl. intros H. apply Ascii.eqb_eq in H. subst x. exists "". reflexivity.
  - intros H. change (PyStr.endswith (String y a) c = true) in H.
    destruct (IH H) as [a0 E]. exists (String x a0). simpl. rewrite <- E.
    reflexivity.
Qed.

Lemma basename_app_slash (a b : string) :
  OsPath.basename (a ++ String PyStr.slash b) = OsPath.basename b.
Proof. apply last_split_app. Qed.

Lemma basename_app_r (x p : string) :
  PyStr.mem PyStr.slash p = true ->
  OsPath.basename (x ++ p) = OsPath.basename p.
Proof.
  intros H. destruct (mem_split _ _ H) as [a [b ->]].
  rewrite <- string_app_assoc, !basename_app_slash. reflexivity.
Qed.

(** X1: the name under which a row enters the index mapping is the
    basename of its file name; the base directory plays no part. *)
Theorem row_basename_image (inputs : Inputs) (r : Row) :
  row_basename inputs r = OsPath.basename (image r).
Proof.
  unfold row_basename, OsPath.join.
  destruct (PyStr.startswith (image r) PyStr.slash); [reflexivity|].
  destruct (base_dir inputs) as [|c a] eqn:Ea; [reflexivity|].
  simpl (String.length _ =? 0)%nat. cbv iota. rewrite orb_false_l.
  destruct (PyStr.endswith (String c a) PyStr.slash) eqn:Ee.
  - destruct (endswith_app _ _ Ee) as [a0 ->].
    rewrite string_app_assoc. simpl (String PyStr.slash "" ++ _)%string.
    apply basename_app_slash.
  - apply basename_app_slash.
Qed.

Lemma lookup_name_slash_eq (p : string) :
  PyStr.mem PyStr.slash p = true ->
  lookup_name p = OsPath.basename p.
Proof.
  intros H. unfold lookup_name. simpl.
  rewrite string_app_nil_r.
  rewrite <- !string_app_assoc. apply basename_app_r, H.
Qed.

(** X2: for an image path that contains a slash, the name [produce]
    looks up (the basename of the path repeated four times) is the
    basename of the path. *)
Theorem lookup_name_slash (p : string) :
  PyStr.mem PyStr.slash p = true ->
  lookup_name p = OsPath.basename p.
Proof. exact (lookup_name_slash_eq p). Qed.

Lemma lookup_name_slash_witness :
  PyStr.mem PyStr.slash "/data/a.jpg" = true
  /\ lookup_name "/data/a.jpg" = OsPath.basename "/data/a.jpg".
Proof.
  split; [reflexivity|].
  exact (lookup_name_slash "/data/a.jpg" eq_refl).
Defined.

(** X3: for an image path without a slash, the name [produce] looks up
    is the whole path four times over, which is the path's basename
    only when the path is empty. *)
Theorem lookup_name_no_slash (p : string) :
  PyStr.mem PyStr.slash p = false ->
  lookup_name p = (p ++ p ++ p ++ p)%string
  /\ OsPath.basename p = p
  /\ (lookup_name p = OsPath.basename p -> p = "").
Proof.
  intros H.
  assert (Hb : OsPath.basename p = p).
  { unfold OsPath.basename. rewrite (split_token _ _ H). reflexivity. }
  assert (Hl : lookup_name p = (p ++ p ++ p ++ p)%string).
  { unfold lookup_name, OsPath.basename. simpl. rewrite string_app_nil_r.
    rewrite split_token; [reflexivity|].
    rewrite !mem_app, H. reflexivity. }
  repeat split; try assumption.
  rewrite Hl, Hb. intros E.
  apply (f_equal String.length) in E.
  rewrite !string_length_app in E.
  destruct p; [reflexivity | simpl in E; lia].
Qed.

Lemma lookup_name_no_slash_witness :
  PyStr.mem PyStr.slash "a.jpg" = false
  /\ lookup_name "a.jpg" = "a.jpga.jpga.jpga.jpg"
  /\ OsPath.basename "a.jpg" = "a.jpg".
Proof.
  split; [reflexivity|].
  pose proof (lookup_name_no_slash "a.jpg" eq_refl) as [H1 [H2 _]].
  split; [exact H1 | exact H2].
Defined.

(** ** The list of distinct image paths *)

Lemma enumerate_from_In {A} (l : list A) :
  forall s i x,
    In (i, x) (combine (seq s (List.length l)) l)
    <-> (s <= i)%nat /\ nth_error l (i - s) = Some x.
Proof.
  induction l as [|a l IH]; intros s i x; simpl.
  - split; [tauto|]. intros [_ H]. destruct (i - s)%nat; discriminate.
  - rewrite IH. split.
    + intros [E | [Hle Hn]].
      * inversion E. subst. rewrite Nat.sub_diag. auto.
      * split; [lia|]. replace (i - s)%nat with (S (i - S s)) by lia.
        exact Hn.
    + intros [Hle Hn]. destruct (i - s)%nat as [|k] eqn:E.
      * left. simpl in Hn. inversion Hn. f_equal. lia.
      * right. split; [lia|]. replace (i - S s)%nat with k by lia.
        exact Hn.
Qed.

Lemma enumerate_In {A} (l : list A) (i : nat) (x : A) :
  In (i, x) (enumerate l) <-> nth_error l i = Some x.
Proof.
  unfold enumerate. rewrite enumerate_from_In, Nat.sub_0_r.
  split; [tauto | intros H; split; [lia | exact H]].
Qed.

Lemma list_index_nth (x : string) (l : list string) :
  forall i, list_index x l = Some i -> nth_error l i = Some x.
Proof.
  induction l as [|y l IH]; simpl; intros i H; [discriminate|].
  destruct (String.eqb y x) eqn:E.
  - inversion H. apply String.eqb_eq in E. subst. reflexivity.
  - destruct (list_index x l) as [j|]; [|discriminate].
    inversion H. simpl. apply IH. reflexivity.
Qed.

Lemma list_index_In (x : string) (l : list string) :
  In x l -> exists i, list_index x l = Some i.
Proof.
  induction l as [|y l IH]; simpl; [tauto|].
  intros H. destruct (String.eqb y x) eqn:E; [eauto|].
  destruct H as [-> | H]; [rewrite String.eqb_refl in E; discriminate|].
  destruct (IH H) as [i ->]. simpl. eauto.
Qed.

Lemma map_snd_enumerate {A} (l : list A) : map snd (enumerate l) = l.
Proof.
  unfold enumerate. generalize 0%nat.
  induction l as [|a l IH]; intros s; simpl; [reflexivity|].
  f_equal. apply IH.
Qed.

Lemma map_fst_enumerate {A} (l : list A) :
  map fst (enumerate l) = seq 0 (List.length l).
Proof.
  unfold enumerate. apply map_fst_combine. apply length_seq.
Qed.

Lemma filter_all {A} (f : A -> bool) (l : list A) :
  (forall x, In x l -> f x = true) -> filter f l = l.
Proof.
  induction l as [|a l IH]; simpl; intros H; [reflexivity|].
  rewrite (H a) by auto. f_equal. apply IH. auto.
Qed.

Lemma first_occurrences_In (l : list string) (x : string) :
  In x l -> In x (first_occurrences l).
Proof.
  intros H. destruct (list_index_In x l H) as [i Hi].
  unfold first_occurrences. apply in_map_iff. exists (i, x).
  split; [reflexivity|]. apply filter_In. split.
  - apply enumerate_In, list_index_nth, Hi.
  - simpl. rewrite Hi. apply Nat.eqb_refl.
Qed.

(** X4: the list of images [produce] runs the detector on holds every
    image path of the table and no path twice. *)
Theorem first_occurrences_distinct (l : list string) :
  NoDup (first_occurrences l)
  /\ (forall x, In x (first_occurrences l) <-> In x l).
Proof.
  split.
  - unfold first_occurrences.
    apply NoDup_map_NoDup_ForallPairs.
    + intros [i x] [j y] Hi Hj E. simpl in E. subst y.
      apply filter_In in Hi as [_ Hi], Hj as [_ Hj]. simpl in Hi, Hj.
      destruct (list_index x l) as [k|]; [|discriminate].
      apply Nat.eqb_eq in Hi, Hj. congruence.
    + apply NoDup_filter. apply (NoDup_map_inv fst).
      rewrite map_fst_enumerate. apply seq_NoDup.
  - intros x. split;
      [apply first_occurrences_incl | apply first_occurrences_In].
Qed.

Lemma first_occurrences_id (l : list string) :
  NoDup l -> first_occurrences l = l.
Proof.
  intros Hnd. unfold first_occurrences.
  rewrite filter_all; [apply map_snd_enumerate|].
  intros [i x] Hin. simpl. apply enumerate_In in Hin.
  assert (Hx : In x l) by (eapply nth_error_In; eauto).
  destruct (list_index_In x l Hx) as [j Hj]. rewrite Hj.
  apply list_index_nth in Hj. apply Nat.eqb_eq.
  rewrite NoDup_nth_error in Hnd. apply Hnd.
  - apply nth_error_Some. congruence.
  - congruence.
Qed.

(** X5: a list of image paths without repetition is kept as it is, in
    its order. *)
Theorem first_occurrences_NoDup (l : list string) :
  NoDup l -> first_occurrences l = l.
Proof. exact (first_occurrences_id l). Qed.

Lemma first_occurrences_NoDup_witness :
  NoDup ["/data/a.jpg"; "/data/b.jpg"]
  /\ first_occurrences ["/data/a.jpg"; "/data/b.jpg"]
     = ["/data/a.jpg"; "/data/b.jpg"].
Proof.
  assert (H : NoDup ["/data/a.jpg"; "/data/b.jpg"]).
  { repeat constructor; simpl; intuition discriminate. }
  split; [exact H|].
  exact (first_occurrences_NoDup ["/data/a.jpg"; "/data/b.jpg"] H).
Defined.

(** ** Invariants of the index mapping *)

Section DictKeys.

Context {V : Type}.

Lemma set_keys_In (d : PyDict.dict V) (k : string) (v : V) (k' : string) :
  In k' (map fst (PyDict.set d k v)) <-> k' = k \/ In k' (map fst d).
Proof.
  induction d as [|[k0 v0] d IH]; simpl.
  - intuition.
  - destruct (String.eqb k0 k) eqn:E; simpl.
    + apply String.eqb_eq in E. subst k0. intuition.
    + rewrite IH. intuition.
Qed.

Lemma set_keys_NoDup (d : PyDict.dict V) (k : string) (v : V) :
  NoDup (map fst d) -> NoDup (map fst (PyDict.set d k v)).
Proof.
  induction d as [|[k0 v0] d IH]; simpl; intros H.
  - constructor; [simpl; tauto | constructor].
  - inversion H as [|? ? Hk Hd]; subst.
    destruct (String.eqb k0 k) eqn:E; simpl.
    + constructor; assumption.
    + constructor; [|apply IH, Hd].
      rewrite set_keys_In. intros [-> | Hin]; [|tauto].
      rewrite String.eqb_refl in E. discriminate.
Qed.

Lemma of_items_keys_NoDup (l : list (string * V)) :
  NoDup (map fst (PyDict.of_items l)).
Proof.
  induction l as [|[k v] l IH] using rev_ind; [constructor|].
  rewrite of_items_snoc. apply set_keys_NoDup, IH.
Qed.

Lemma of_items_keys_In (l : list (string * V)) (k : string) :
  In k (map fst (PyDict.of_items l)) <-> In k (map fst l).
Proof.
  induction l as [|[k0 v0] l IH] using rev_ind; [reflexivity|].
  rewrite of_items_snoc, set_keys_In, map_app, in_app_iff, IH. simpl.
  intuition.
Qed.

Lemma In_get (d : PyDict.dict V) (k : string) (v : V) :
  NoDup (map fst d) -> In (k, v) d -> PyDict.get d k = Some v.
Proof.
  induction d as [|[k0 v0] d IH]; simpl; intros Hnd Hin; [tauto|].
  inversion Hnd as [|? ? Hk Hd]; subst.
  destruct Hin as [E | Hin].
  - inversion E. subst. rewrite String.eqb_refl. reflexivity.
  - destruct (String.eqb k0 k) eqn:E; [|apply IH; assumption].
    apply String.eqb_eq in E. subst k0. exfalso. apply Hk.
    apply (in_map fst) in Hin. exact Hin.
Qed.

End DictKeys.

Lemma find_none_iff {A} (f : A -> bool) (l : list A) :
  find f l = None <-> forall x, In x l -> f x = false.
Proof.
  split; [apply find_none|].
  induction l as [|a l IH]; simpl; intros H; [reflexivity|].
  rewrite (H a) by auto. apply IH. auto.
Qed.

(** X6: the index mapping has one entry per distinct image basename of
    the table, and each entry holds the one-element list with the
    identifier of the last row of that basename. *)
Theorem mapping_entries (inputs : Inputs) :
  let mapping := to_dict_list (input_df inputs) in
  NoDup (map fst mapping)
  /\ (forall b, In b (map fst mapping)
                <-> exists r, In r (rows inputs) /\ row_basename inputs r = b)
  /\ (forall b v, In (b, v) mapping
                  <-> exists r, last_row_named inputs b = Some r
                                /\ v = [d3mIndex r]).
Proof.
  intros mapping. unfold mapping, to_dict_list.
  split; [apply of_items_keys_NoDup|]. split.
  - intros b. rewrite of_items_keys_In, input_df_rows, !map_map. simpl.
    rewrite in_map_iff. split; intros [r [H1 H2]]; exists r; tauto.
  - intros b v. fold (to_dict_list (input_df inputs)). split.
    + intros H. apply In_get in H; [|apply of_items_keys_NoDup].
      rewrite mapping_get in H.
      destruct (last_row_named inputs b) as [r|]; [|discriminate].
      exists r. simpl in H. inversion H. auto.
    + intros [r [Hr ->]]. apply get_In.
      rewrite mapping_get, Hr. reflexivity.
Qed.

Lemma mapping_get_none (inputs : Inputs) (b : string) :
  PyDict.get (to_dict_list (input_df inputs)) b = None
  <-> forall r, In r (rows inputs) -> row_basename inputs r <> b.
Proof.
  rewrite mapping_get. unfold last_row_named.
  destruct (find _ (rev (rows inputs))) as [r|] eqn:E; simpl.
  - split; [discriminate|]. intros H.
    apply find_some in E as [Hin Heq]. apply String.eqb_eq in Heq.
    apply in_rev in Hin. exfalso. exact (H r Hin Heq).
  - split; [|reflexivity]. intros _ r Hr Heq.
    rewrite find_none_iff in E. apply in_rev in Hr.
    specialize (E r Hr). simpl in E. rewrite Heq, String.eqb_refl in E.
    discriminate.
Qed.

(** X7: looking up a name that is the basename of no row's image
    gives [None], and only such a name does. *)
Theorem mapping_missing_key (inputs : Inputs) (b : string) :
  PyDict.get (to_dict_list (input_df inputs)) b = None
  <-> forall r, In r (rows inputs) -> row_basename inputs r <> b.
Proof. exact (mapping_get_none inputs b). Qed.

(** ** The outcomes of [produce] *)

Lemma flatten_raises (l : list (option (list Z))) (e : exn) :
  flatten l = Raise e -> e = TypeError /\ In None l.
Proof.
  induction l as [|[u|] l IH]; simpl; intros H.
  - discriminate.
  - destruct (flatten l) as [rest|e'] eqn:E; simpl in H; [discriminate|].
    inversion H. subst e'. destruct (IH eq_refl). auto.
  - inversion H. auto.
Qed.

Lemma flatten_singletons {A} (f : A -> Z) (l : list A) :
  flatten (map (fun a => Some [f a]) l) = Ok (map f l).
Proof.
  induction l as [|a l IH]; simpl; [reflexivity|].
  rewrite IH. reflexivity.
Qed.

Lemma flatten_length (l : list (option (list Z))) :
  Forall (fun e => e = None \/ exists x, e = Some [x]) l ->
  forall ids, flatten l = Ok ids -> List.length ids = List.length l.
Proof.
  induction l as [|e l IH]; simpl; intros Hall ids H.
  - inversion H. reflexivity.
  - inversion Hall as [|? ? He Hl]; subst.
    destruct He as [-> | [x ->]]; [discriminate|].
    destruct (flatten l) as [rest|] eqn:E; simpl in H; [|discriminate].
    inversion H. simpl. f_equal. apply IH; auto.
Qed.

Lemma mapping_get_shape (inputs : Inputs) (b : string) :
  PyDict.get (to_dict_list (input_df inputs)) b = None
  \/ exists x, PyDict.get (to_dict_list (input_df inputs)) b = Some [x].
Proof.
  rewrite mapping_get.
  destruct (last_row_named inputs b) as [r|]; simpl; eauto.
Qed.

Lemma produce_unfold (predict : string -> list Detection) (inputs : Inputs) :
  produce predict inputs
  = (d3mIdx <-
       flatten
         (map (fun p => PyDict.get (to_dict_list (input_df inputs))
                                   (lookup_name (fst p)))
              (all_accepted predict
                 (first_occurrences (image_paths inputs)))) ;;
     results <-
       DataFrame3 d3mIdx
         (map (fun x => box_string (astype_int (box (snd x))))
              (all_accepted predict
                 (first_occurrences (image_paths inputs))))
         (map (fun x => score (snd x))
              (all_accepted predict
                 (first_occurrences (image_paths inputs)))) ;;
     if Nat.eqb
          (List.length
             (empty_predictions
                (to_dict_list (input_df inputs))
                (map (fun p => PyDict.get (to_dict_list (input_df inputs))
                                          (lookup_name (fst p)))
                     (all_accepted predict
                        (first_occurrences (image_paths inputs)))))) 0
     then Ok results
     else Raise NameError).
Proof.
  unfold produce. rewrite detect_all_accepted.
  cbn [box_list score_list image_name_list].
  rewrite !map_map. reflexivity.
Qed.

(** The three ways [produce] ends. *)
Lemma produce_cases (predict : string -> list Detection) (inputs : Inputs) :
  let acc := all_accepted predict (first_occurrences (image_paths inputs)) in
  let mapping := to_dict_list (input_df inputs) in
  let d3mIdx :=
    map (fun p => PyDict.get mapping (lookup_name (fst p))) acc in
  (In None d3mIdx /\ produce predict inputs = Raise TypeError)
  \/ (exists ids,
         flatten d3mIdx = Ok ids
         /\ List.length ids = List.length acc
         /\ produce predict inputs
            = if Nat.eqb (List.length (empty_predictions mapping d3mIdx)) 0
              then Ok (map prediction_row (combine ids acc))
              else Raise NameError).
Proof.
  cbv zeta. rewrite produce_unfold.
  destruct (flatten _) as [ids|e] eqn:Hflat; cbn [bind].
  - right. exists ids.
    assert (Hlen : List.length ids
                   = List.length
                       (all_accepted predict
                          (first_occurrences (image_paths inputs)))).
    { erewrite flatten_length; [apply length_map | | exact Hflat].
      apply Forall_forall. intros e He.
      apply in_map_iff in He as [p [<- _]]. apply mapping_get_shape. }
    repeat split; [exact Hlen|].
    unfold DataFrame3. rewrite !length_map, Hlen, Nat.eqb_refl.
    cbn [andb bind].
    rewrite (zip3_map (fun x => box_string (astype_int (box (snd x))))
                      (fun x => score (snd x)) _ ids Hlen).
    reflexivity.
  - left. destruct (flatten_raises _ _ Hflat) as [-> Hin]. auto.
Qed.

(** X8: [produce] ends in one of three ways: it returns a table,
    raises [TypeError] or raises [NameError]; the frame constructor's
    length check never fails. *)
Theorem produce_errors (predict : string -> list Detection)
        (inputs : Inputs) (e : exn) :
  produce predict inputs = Raise e -> e = TypeError \/ e = NameError.
Proof.
  intros H.
  destruct (produce_cases predict inputs) as [[_ E] | [ids [_ [_ E]]]];
    rewrite E in H.
  - inversion H. auto.
  - destruct (Nat.eqb _ 0); inversion H. auto.
Qed.

Lemma produce_errors_witness :
  produce silent one_image = Raise NameError
  /\ (NameError = TypeError \/ NameError = NameError).
Proof.
  split; [reflexivity|].
  exact (produce_errors silent one_image NameError eq_refl).
Defined.

(** X9: on a table without rows [produce] returns the empty table,
    whatever the detector and the base directory. *)
Theorem produce_empty_table (predict : string -> list Detection)
        (base : string) :
  produce predict {| base_dir := base; rows := [] |} = Ok [].
Proof. reflexivity. Qed.

Lemma join_has_slash (a b : string) :
  PyStr.startswith a PyStr.slash = true ->
  PyStr.mem PyStr.slash (OsPath.join a b) = true.
Proof.
  intros Ha. unfold OsPath.join.
  assert (Hm : PyStr.mem PyStr.slash a = true).
  { destruct a as [|c a]; [discriminate|]. simpl in *. rewrite Ha.
    reflexivity. }
  destruct (PyStr.startswith b PyStr.slash) eqn:Hb.
  - destruct b as [|c b]; [discriminate|]. simpl in *. rewrite Hb.
    reflexivity.
  - destruct ((String.length a =? 0)%nat || PyStr.endswith a PyStr.slash);
      rewrite mem_app, Hm; reflexivity.
Qed.

Lemma image_paths_In (inputs : Inputs) (i : string) :
  In i (image_paths inputs)
  <-> exists r, In r (rows inputs) /\ i = row_path inputs r.
Proof.
  unfold image_paths. rewrite in_map_iff.
  split; intros [r [H1 H2]]; exists r; auto.
Qed.

(** With an absolute base directory every name looked up is the
    basename of the detection's image. *)
Lemma lookup_name_row (inputs : Inputs) (r : Row) :
  PyStr.startswith (base_dir inputs) PyStr.slash = true ->
  lookup_name (row_path inputs r) = row_basename inputs r.
Proof.
  intros H. apply lookup_name_slash_eq, join_has_slash, H.
Qed.

(** X10: when the base directory starts with a slash, every lookup of
    a detection's image name succeeds and [produce] does not raise
    [TypeError]: it returns a table or raises [NameError]. *)
Theorem produce_absolute_base (predict : string -> list Detection)
        (inputs : Inputs) :
  PyStr.startswith (base_dir inputs) PyStr.slash = true ->
  (exists out, produce predict inputs = Ok out)
  \/ produce predict inputs = Raise NameError.
Proof.
  intros Hbase.
  destruct (produce_cases predict inputs) as [[Hin _] | [ids [_ [_ E]]]].
  - exfalso. apply in_map_iff in Hin as [[i d] [Hget Hin]].
    apply all_accepted_In in Hin as [Hi _].
    apply first_occurrences_incl, image_paths_In in Hi as [r [Hr ->]].
    simpl in Hget. rewrite (lookup_name_row inputs r Hbase) in Hget.
    exact (proj1 (mapping_get_none _ _) Hget r Hr eq_refl).
  - rewrite E. destruct (Nat.eqb _ 0); eauto.
Qed.

Lemma produce_absolute_base_witness :
  PyStr.startswith (base_dir scenario_inputs) PyStr.slash = true
  /\ ((exists out, produce scenario_detector scenario_inputs = Ok out)
      \/ produce scenario_detector scenario_inputs = Raise NameError).
Proof.
  split; [reflexivity|].
  exact (produce_absolute_base scenario_detector scenario_inputs eq_refl).
Defined.

Lemma map_snd_combine {A B} (l : list A) :
  forall l' : list B,
    List.length l = List.length l' -> map snd (combine l l') = l'.
Proof.
  induction l as [|a l IH]; intros [|b l'] H; simpl in *;
    try reflexivity; try discriminate.
  f_equal. apply IH. congruence.
Qed.

Lemma flatten_ok_no_none (l : list (option (list Z))) (ids : list Z) :
  flatten l = Ok ids -> ~ In None l.
Proof.
  revert ids. induction l as [|[u|] l IH]; simpl; intros ids H.
  - tauto.
  - destruct (flatten l) as [rest|] eqn:E; simpl in H; [|discriminate].
    intros [Hc | Hc]; [discriminate | exact (IH rest eq_refl Hc)].
  - discriminate.
Qed.

(** Every row of a returned table is filed under the identifier of the
    last row named as the detection's image is looked up. *)
Lemma produce_last_ids (predict : string -> list Detection)
      (inputs : Inputs) (out : list Out.row) :
  produce predict inputs = Ok out ->
  let acc := all_accepted predict (first_occurrences (image_paths inputs)) in
  out = map (fun p => prediction_row
                        (last_id inputs (lookup_name (fst p)), p)) acc
  /\ Forall (fun p => exists r,
                 last_row_named inputs (lookup_name (fst p)) = Some r) acc.
Proof.
  intros H acc.
  destruct (produce_ok_inv _ _ _ H) as [ids [Hflat [_ [Hout _]]]].
  fold acc in Hflat, Hout.
  assert (Hfound : Forall (fun p => exists r,
                              last_row_named inputs (lookup_name (fst p))
                              = Some r) acc).
  { apply Forall_forall. intros p Hp.
    destruct (last_row_named inputs (lookup_name (fst p))) as [r|] eqn:E;
      [eauto|].
    exfalso. apply (flatten_ok_no_none _ _ Hflat).
    apply in_map_iff. exists p. split; [|exact Hp].
    rewrite mapping_get, E. reflexivity. }
  split; [|exact Hfound].
  assert (E : map (fun p => PyDict.get (to_dict_list (input_df inputs))
                                       (lookup_name (fst p))) acc
              = map (fun p => Some [last_id inputs (lookup_name (fst p))])
                    acc).
  { apply map_ext_in. intros p Hp. rewrite Forall_forall in Hfound.
    destruct (Hfound p Hp) as [r Hr].
    rewrite mapping_get. unfold last_id. rewrite Hr. reflexivity. }
  rewrite E, flatten_singletons in Hflat. inversion Hflat. subst ids out.
  rewrite <- (map_id acc) at 2. rewrite combine_map, map_map.
  reflexivity.
Qed.

(** C4, amended: the mapping built by [produce] answers a basename
    with a one-element list, the identifier of the last input row that
    has this basename (an earlier row of the same basename is
    overwritten).  The rows of a returned table are the accepted
    detections, each under the identifier of the last row whose
    basename is the name looked up for the detection's own image; so,
    with a base directory that starts with a slash, every accepted
    detection of an image that shares its basename with a later row is
    returned under the identifier of the last such row. *)
Theorem mapping_keeps_last_row (predict : string -> list Detection)
        (inputs : Inputs) :
  (forall b,
      PyDict.get (to_dict_list (input_df inputs)) b
      = option_map (fun r => [d3mIndex r]) (last_row_named inputs b))
  /\ (forall out,
         produce predict inputs = Ok out ->
         out = map (fun p => prediction_row
                               (last_id inputs (lookup_name (fst p)), p))
                   (all_accepted predict
                      (first_occurrences (image_paths inputs)))
         /\ Forall (fun p => exists r,
                        last_row_named inputs (lookup_name (fst p))
                        = Some r)
                   (all_accepted predict
                      (first_occurrences (image_paths inputs)))
         /\ Forall (fun o => exists b r,
                        last_row_named inputs b = Some r
                        /\ Out.d3mIndex o = d3mIndex r) out
         /\ (PyStr.startswith (base_dir inputs) PyStr.slash = true ->
             forall r1 r2 d,
               In r1 (rows inputs) ->
               row_basename inputs r1 = row_basename inputs r2 ->
               last_row_named inputs (row_basename inputs r2) = Some r2 ->
               In d (accepted (predict (row_path inputs r1))) ->
               In (prediction_row
                     (d3mIndex r2, (row_path inputs r1, d))) out)).
Proof.
  split; [apply mapping_get|].
  intros out H. destruct (produce_last_ids _ _ _ H) as [Hout Hfound].
  split; [exact Hout|]. split; [exact Hfound|]. split.
  - rewrite Hout. apply Forall_forall. intros o Ho.
    apply in_map_iff in Ho as [p [<- Hp]].
    rewrite Forall_forall in Hfound. destruct (Hfound p Hp) as [r Hr].
    exists (lookup_name (fst p)), r. split; [exact Hr|].
    simpl. unfold last_id. rewrite Hr. reflexivity.
  - intros Hbase r1 r2 d Hr1 Hname Hlast Hd.
    rewrite Hout. apply in_map_iff. exists (row_path inputs r1, d).
    split.
    + simpl. rewrite (lookup_name_row inputs r1 Hbase), Hname.
      unfold last_id. rewrite Hlast. reflexivity.
    + apply all_accepted_In. split; [|exact Hd].
      apply first_occurrences_In, image_paths_In. eauto.
Qed.

Lemma mapping_keeps_last_row_witness :
  produce twin_detector twin_inputs
  = Ok [out_row 2 "10,20,10,40,30,40,30,20" (9 # 10);
        out_row 2 "1,2,1,4,3,4,3,2" (8 # 10)]
  /\ PyStr.startswith (base_dir twin_inputs) PyStr.slash = true
  /\ In (out_row 2 "10,20,10,40,30,40,30,20" (9 # 10))
        [out_row 2 "10,20,10,40,30,40,30,20" (9 # 10);
         out_row 2 "1,2,1,4,3,4,3,2" (8 # 10)].
Proof.
  split; [reflexivity|]. split; [reflexivity|].
  exact (proj2 (proj2 (proj2
           (proj2 (mapping_keeps_last_row twin_detector twin_inputs)
                  _ eq_refl)))
           eq_refl
           {| d3mIndex := 1; image := "d1/a.jpg"; bounding_box := "" |}
           {| d3mIndex := 2; image := "d2/a.jpg"; bounding_box := "" |}
           (mk_det (mk_box 10 20 30 40) (9 # 10))
           (or_introl eq_refl) eq_refl eq_refl (or_introl eq_refl)).
Defined.

(** X11: when an accepted detection belongs to an image whose
    looked-up name is the basename of no row, [produce] raises
    [TypeError]. *)
Theorem produce_type_error (predict : string -> list Detection)
        (inputs : Inputs) (i : string) (d : Detection) :
  In i (image_paths inputs) ->
  In d (accepted (predict i)) ->
  (forall r, In r (rows inputs) -> row_basename inputs r <> lookup_name i) ->
  produce predict inputs = Raise TypeError.
Proof.
  intros Hi Hd Hno.
  destruct (produce_cases predict inputs) as [[_ E] | [ids [Hflat _]]];
    [exact E|].
  exfalso. apply (flatten_ok_no_none _ _ Hflat).
  apply in_map_iff. exists (i, d). split.
  - simpl. apply mapping_get_none. exact Hno.
  - apply all_accepted_In. split; [|exact Hd].
    apply first_occurrences_In. exact Hi.
Qed.

Lemma produce_type_error_witness :
  produce (fun _ => [mk_det (mk_box 1 2 3 4) (9 # 10)])
          {| base_dir := "";
             rows := [{| d3mIndex := 1; image := "a.jpg";
                         bounding_box := "" |}] |}
  = Raise TypeError.
Proof.
  apply (produce_type_error
           (fun _ => [mk_det (mk_box 1 2 3 4) (9 # 10)])
           {| base_dir := "";
              rows := [{| d3mIndex := 1; image := "a.jpg";
                          bounding_box := "" |}] |}
           "a.jpg" (mk_det (mk_box 1 2 3 4) (9 # 10))).
  - simpl. auto.
  - simpl. auto.
  - intros r [<- | []]. discriminate.
Defined.

(** X12: the bounding-box and confidence columns of a returned table
    list the accepted detections image after image, images in the order
    of their first row in the table and detections in the detector's
    order; the table is not reordered by identifier. *)
Theorem produce_columns (predict : string -> list Detection)
        (inputs : Inputs) (out : list Out.row) :
  produce predict inputs = Ok out ->
  map Out.bounding_box out
  = map (fun p => box_string (astype_int (box (snd p))))
        (all_accepted predict (first_occurrences (image_paths inputs)))
  /\ map Out.confidence out
     = map (fun p => score (snd p))
           (all_accepted predict (first_occurrences (image_paths inputs))).
Proof.
  intros H. destruct (produce_ok_inv _ _ _ H) as [ids [_ [Hlen [-> _]]]].
  rewrite !map_map. unfold prediction_row. simpl.
  split.
  - rewrite <- (map_map snd (fun p => box_string (astype_int (box (snd p))))).
    rewrite (map_snd_combine _ _ Hlen). reflexivity.
  - rewrite <- (map_map snd (fun p => score (snd p))).
    rewrite (map_snd_combine _ _ Hlen). reflexivity.
Qed.

Lemma produce_columns_witness :
  produce two_detections one_image
  = Ok [out_row 1 "10,20,10,40,30,40,30,20" (9 # 10);
        out_row 1 "1,2,1,4,3,4,3,2" (8 # 10)]
  /\ map Out.confidence
         [out_row 1 "10,20,10,40,30,40,30,20" (9 # 10);
          out_row 1 "1,2,1,4,3,4,3,2" (8 # 10)]
     = [9 # 10; 8 # 10].
Proof.
  split; [reflexivity|].
  exact (proj2 (produce_columns two_detections one_image _ eq_refl)).
Defined.

(** X13: [produce] never returns a placeholder row: every row of a
    returned table has a confidence of at least 0.5, hence none has
    confidence 0. *)
Theorem produce_no_placeholder (predict : string -> list Detection)
        (inputs : Inputs) (out : list Out.row) :
  produce predict inputs = Ok out ->
  Forall (fun o => (1 # 2 <= Out.confidence o)%Q
                   /\ ~ (Out.confidence o == 0)%Q) out.
Proof.
  intros H. apply produce_confidence in H.
  eapply Forall_impl; [|exact H]. simpl. intros o Ho.
  split; [exact Ho|]. intros E. rewrite E in Ho.
  unfold threshold in Ho. apply Qle_bool_iff in Ho. discriminate.
Qed.

Lemma produce_no_placeholder_witness :
  produce two_detections one_image
  = Ok [out_row 1 "10,20,10,40,30,40,30,20" (9 # 10);
        out_row 1 "1,2,1,4,3,4,3,2" (8 # 10)]
  /\ Forall (fun o => (1 # 2 <= Out.confidence o)%Q
                      /\ ~ (Out.confidence o == 0)%Q)
            [out_row 1 "10,20,10,40,30,40,30,20" (9 # 10);
             out_row 1 "1,2,1,4,3,4,3,2" (8 # 10)].
Proof.
  split; [reflexivity|].
  exact (produce_no_placeholder two_detections one_image _ eq_refl).
Defined.

Lemma all_accepted_ext (p1 p2 : string -> list Detection) (l : list string) :
  (forall i, In i l -> p1 i = p2 i) ->
  all_accepted p1 l = all_accepted p2 l.
Proof.
  unfold all_accepted. induction l as [|i l IH]; simpl; intros H;
    [reflexivity|].
  rewrite (H i) by auto. f_equal. apply IH. auto.
Qed.

(** X14: [produce] consults the detector on the image paths of the
    table only: two detectors that agree on these paths give the same
    result. *)
Theorem produce_detector_ext (p1 p2 : string -> list Detection)
        (inputs : Inputs) :
  (forall i, In i (image_paths inputs) -> p1 i = p2 i) ->
  produce p1 inputs = produce p2 inputs.
Proof.
  intros H. rewrite !produce_unfold.
  rewrite (all_accepted_ext p1 p2); [reflexivity|].
  intros i Hi. apply H, first_occurrences_incl, Hi.
Qed.

Lemma produce_detector_ext_witness :
  two_detections "/data/b.jpg" <> two_detections_more "/data/b.jpg"
  /\ produce two_detections one_image
     = produce two_detections_more one_image.
Proof.
  split; [discriminate|].
  apply (produce_detector_ext two_detections two_detections_more one_image).
  intros i [<- | []]. reflexivity.
Defined.

(** ** [produce] on tables with distinct image names *)

Lemma NoDup_map_comp {A B C} (f : A -> B) (g : B -> C) (l : list A) :
  NoDup (map (fun a => g (f a)) l) -> NoDup (map f l).
Proof.
  induction l as [|a l IH]; simpl; intros H; [constructor|].
  inversion H as [|? ? Ha Hl]; subst. constructor; [|apply IH, Hl].
  intros Hin. apply Ha. apply in_map_iff in Hin as [b [E Hb]].
  apply in_map_iff. exists b. split; [congruence | exact Hb].
Qed.

Lemma all_accepted_rows (predict : string -> list Detection)
      (inputs : Inputs) :
  all_accepted predict (image_paths inputs)
  = map (fun rd => (row_path inputs (fst rd), snd rd))
        (accepted_rows predict inputs).
Proof.
  unfold all_accepted, accepted_rows, image_paths.
  fold (row_path inputs).
  induction (rows inputs) as [|r l IH]; simpl; [reflexivity|].
  rewrite map_app, map_map, IH. reflexivity.
Qed.

Lemma accepted_rows_In (predict : string -> list Detection)
      (inputs : Inputs) (r : Row) (d : Detection) :
  In (r, d) (accepted_rows predict inputs)
  <-> In r (rows inputs) /\ In d (accepted (predict (row_path inputs r))).
Proof.
  unfold accepted_rows. rewrite in_flat_map. split.
  - intros [r' [Hr Hin]]. apply in_map_iff in Hin as [d' [E Hd]].
    inversion E. subst. auto.
  - intros [Hr Hd]. exists r. split; [exact Hr|].
    apply in_map_iff. eauto.
Qed.

Lemma flat_map_rows_of (predict : string -> list Detection)
      (inputs : Inputs) :
  flat_map (rows_of predict inputs) (rows inputs)
  = map (fun rd => prediction_row
                     (d3mIndex (fst rd), (row_path inputs (fst rd), snd rd)))
        (accepted_rows predict inputs).
Proof.
  unfold accepted_rows, rows_of.
  induction (rows inputs) as [|r l IH]; simpl; [reflexivity|].
  rewrite map_app, map_map, IH. reflexivity.
Qed.

Section DistinctNames.

Variable predict : string -> list Detection.
Variable inputs : Inputs.

Hypothesis absolute_base :
  PyStr.startswith (base_dir inputs) PyStr.slash = true.
Hypothesis distinct_names :
  NoDup (map (row_basename inputs) (rows inputs)).

Lemma image_list_rows :
  first_occurrences (image_paths inputs) = image_paths inputs.
Proof.
  apply first_occurrences_id. unfold image_paths.
  apply (NoDup_map_comp _ OsPath.basename). exact distinct_names.
Qed.

Lemma d3mIdx_rows :
  map (fun p => PyDict.get (to_dict_list (input_df inputs))
                           (lookup_name (fst p)))
      (all_accepted predict (first_occurrences (image_paths inputs)))
  = map (fun rd => Some [d3mIndex (fst rd)]) (accepted_rows predict inputs).
Proof.
  rewrite image_list_rows, all_accepted_rows, map_map.
  apply map_ext_in. intros [r d] Hin. simpl.
  apply accepted_rows_In in Hin as [Hr _].
  rewrite (lookup_name_row inputs r absolute_base), mapping_get.
  rewrite (last_row_named_unique inputs r distinct_names Hr). reflexivity.
Qed.

Lemma produce_distinct_cases :
  produce predict inputs
  = if Nat.eqb
         (List.length
            (empty_predictions
               (to_dict_list (input_df inputs))
               (map (fun rd => Some [d3mIndex (fst rd)])
                    (accepted_rows predict inputs)))) 0
    then Ok (flat_map (rows_of predict inputs) (rows inputs))
    else Raise NameError.
Proof.
  destruct (produce_cases predict inputs) as [[Hin _] | [ids [Hf [_ E]]]].
  - exfalso. rewrite d3mIdx_rows in Hin.
    apply in_map_iff in Hin as [rd [Hc _]]. discriminate.
  - rewrite E. rewrite d3mIdx_rows in Hf |- *.
    rewrite flatten_singletons in Hf. inversion Hf. subst ids.
    rewrite image_list_rows, all_accepted_rows, combine_map, map_map.
    rewrite flat_map_rows_of. reflexivity.
Qed.

End DistinctNames.

Lemma filter_none {A} (f : A -> bool) (l : list A) :
  (forall x, In x l -> f x = false) -> filter f l = [].
Proof.
  induction l as [|a l IH]; simpl; intros H; [reflexivity|].
  rewrite (H a) by auto. apply IH. auto.
Qed.

Lemma last_row_named_In (inputs : Inputs) (b : string) (r : Row) :
  last_row_named inputs b = Some r ->
  In r (rows inputs) /\ row_basename inputs r = b.
Proof.
  unfold last_row_named. intros H. apply find_some in H as [Hin Heq].
  apply in_rev in Hin. apply String.eqb_eq in Heq. auto.
Qed.

(** X15: on a table whose base directory starts with a slash and whose
    rows have pairwise distinct image basenames, if every image has a
    detection accepted then [produce] returns, row after row of the
    input, the accepted detections of the row's image under the row's
    identifier. *)
Theorem produce_all_detected (predict : string -> list Detection)
        (inputs : Inputs) :
  PyStr.startswith (base_dir inputs) PyStr.slash = true ->
  NoDup (map (row_basename inputs) (rows inputs)) ->
  (forall r, In r (rows inputs) ->
             accepted (predict (row_path inputs r)) <> []) ->
  produce predict inputs = Ok (flat_map (rows_of predict inputs) (rows inputs)).
Proof.
  intros Hbase Hnd Hall.
  rewrite (produce_distinct_cases predict inputs Hbase Hnd).
  unfold empty_predictions. rewrite filter_none; [reflexivity|].
  intros [b v] Hin. simpl. apply negb_false_iff, value_in_In.
  apply In_get in Hin; [|apply of_items_keys_NoDup].
  rewrite mapping_get in Hin.
  destruct (last_row_named inputs b) as [r|] eqn:Er; [|discriminate].
  simpl in Hin. inversion Hin. subst v.
  apply last_row_named_In in Er as [Hr _].
  specialize (Hall r Hr).
  destruct (accepted (predict (row_path inputs r))) as [|d ds] eqn:Ea;
    [congruence|].
  apply in_map_iff. exists (r, d). split; [reflexivity|].
  apply accepted_rows_In. split; [exact Hr|]. rewrite Ea. left. reflexivity.
Qed.

Lemma produce_all_detected_witness :
  produce pair_detector pair_inputs
  = Ok [out_row 1 "10,20,10,40,30,40,30,20" (9 # 10);
        out_row 2 "1,2,1,4,3,4,3,2" (8 # 10)].
Proof.
  apply (produce_all_detected pair_detector pair_inputs).
  - reflexivity.
  - repeat constructor; simpl; intuition discriminate.
  - intros r [<- | [<- | []]]; discriminate.
Defined.

(** X16: on a table whose base directory starts with a slash and whose
    rows have pairwise distinct image basenames and pairwise distinct
    identifiers, if some image has no detection accepted then
    [produce] raises [NameError]. *)
Theorem produce_some_undetected (predict : string -> list Detection)
        (inputs : Inputs) (r : Row) :
  PyStr.startswith (base_dir inputs) PyStr.slash = true ->
  NoDup (map (row_basename inputs) (rows inputs)) ->
  NoDup (map d3mIndex (rows inputs)) ->
  In r (rows inputs) ->
  accepted (predict (row_path inputs r)) = [] ->
  produce predict inputs = Raise NameError.
Proof.
  intros Hbase Hnd Hids Hr Hnone.
  rewrite (produce_distinct_cases predict inputs Hbase Hnd).
  match goal with |- (if Nat.eqb (List.length ?l) 0 then _ else _) = _ =>
    assert (Hin : In (row_basename inputs r) l)
  end.
  { unfold empty_predictions. apply in_map_iff.
    exists (row_basename inputs r, [d3mIndex r]). split; [reflexivity|].
    apply filter_In. split.
    - apply get_In. rewrite mapping_get.
      rewrite (last_row_named_unique inputs r Hnd Hr). reflexivity.
    - simpl. apply negb_true_iff.
      match goal with |- ?b = false => destruct b eqn:E end; [|reflexivity].
      exfalso. apply value_in_In in E.
      apply in_map_iff in E as [[r' d] [E Hin]]. simpl in E.
      apply accepted_rows_In in Hin as [Hr' Hd].
      assert (r' = r).
      { apply (NoDup_map_eq d3mIndex (rows inputs)); try assumption.
        congruence. }
      subst r'. rewrite Hnone in Hd. destruct Hd. }
  destruct (empty_predictions _ _); [destruct Hin | reflexivity].
Qed.

Lemma produce_some_undetected_witness :
  produce first_only_detector pair_inputs = Raise NameError.
Proof.
  apply (produce_some_undetected first_only_detector pair_inputs
           {| d3mIndex := 2; image := "d2/b.jpg"; bounding_box := "" |}).
  - reflexivity.
  - repeat constructor; simpl; intuition discriminate.
  - repeat constructor; simpl; intuition discriminate.
  - simpl. auto.
  - reflexivity.
Defined.

(** ** The threshold against a sorted detector *)

(** X17: when the detector's scores come in non-increasing order, the
    loop's [break] loses nothing: the accepted detections are all the
    detections whose score is not below 0.5. *)
Theorem accepted_sorted (dets : list Detection) :
  descending (map score dets) ->
  accepted dets = filter (fun d => negb (Qltb (score d) threshold)) dets.
Proof.
  induction dets as [|d dets IH]; simpl; [reflexivity|].
  intros [Hall Hdesc].
  destruct (Qltb (score d) threshold) eqn:E; simpl.
  - rewrite filter_none; [reflexivity|].
    intros d' Hd'. apply negb_false_iff, Qltb_lt.
    rewrite Forall_forall in Hall.
    apply Qle_lt_trans with (y := score d).
    + apply Hall, in_map, Hd'.
    + apply Qltb_lt, E.
  - f_equal. apply IH, Hdesc.
Qed.

Lemma accepted_sorted_witness :
  accepted [mk_det (mk_box 1 2 3 4) (9 # 10);
            mk_det (mk_box 1 2 3 4) (1 # 2);
            mk_det (mk_box 1 2 3 4) (1 # 10)]
  = [mk_det (mk_box 1 2 3 4) (9 # 10); mk_det (mk_box 1 2 3 4) (1 # 2)].
Proof.
  apply (accepted_sorted
           [mk_det (mk_box 1 2 3 4) (9 # 10);
            mk_det (mk_box 1 2 3 4) (1 # 2);
            mk_det (mk_box 1 2 3 4) (1 # 10)]).
  simpl. repeat split; repeat constructor; discriminate.
Defined.

(** ** More on the annotation builder *)

(** X18: on a table without rows [set_training_data] raises
    [IndexError], whatever the base directory. *)
Theorem set_training_data_empty (base : string) :
  set_training_data {| base_dir := base; rows := [] |} = Raise IndexError.
Proof. reflexivity. Qed.

Lemma nth_padded (k : nat) (t : list string) (i : nat) :
  nth i (map Some t ++ List.repeat None k) None = nth_error t i.
Proof.
  revert i. induction t as [|x t IH]; intros i; simpl.
  - rewrite nth_repeat. destruct i; reflexivity.
  - destruct i; simpl; [reflexivity|]. apply IH.
Qed.

Lemma nth_pad (w : nat) (t : list string) (i : nat) :
  nth i (Pandas.pad w t) None = nth_error t i.
Proof. apply nth_padded. Qed.

(** X19: in the annotations of a table [set_training_data] accepts,
    every row holds its image path, then the tokens at positions 0, 1,
    4 and 3 of its own bounding-box field, a missing value where the
    field has no such position, then the class name. *)
Theorem annotation_row_tokens (inputs : Inputs) (td : TrainingData)
        (n : nat) (r : Row) :
  set_training_data inputs = Ok td ->
  nth_error (rows inputs) n = Some r ->
  nth_error (Pandas.data (annotations td)) n
  = Some [Some (OsPath.join (base_dir inputs) (image r));
          nth_error (PyStr.split PyStr.comma (bounding_box r)) 0;
          nth_error (PyStr.split PyStr.comma (bounding_box r)) 1;
          nth_error (PyStr.split PyStr.comma (bounding_box r)) 4;
          nth_error (PyStr.split PyStr.comma (bounding_box r)) 3;
          Some "class"].
Proof.
  intros H Hr. rewrite (set_training_data_row inputs td n r H Hr).
  unfold annotation_row. rewrite !nth_pad. reflexivity.
Qed.

Lemma annotation_row_tokens_witness :
  set_training_data ragged_table
  = Ok {| annotations :=
            {| Pandas.columns := annotation_names;
               Pandas.data :=
                 [[Some "/data/a.jpg"; Some "1"; Some "2"; None; None;
                   Some "class"];
                  [Some "/data/b.jpg"; Some "a"; Some "b"; Some "e";
                   Some "d"; Some "class"]] |};
          classes := [("class", 0%Z)] |}
  /\ nth_error
       [[Some "/data/a.jpg"; Some "1"; Some "2"; None; None; Some "class"];
        [Some "/data/b.jpg"; Some "a"; Some "b"; Some "e"; Some "d";
         Some "class"]] 0
     = Some [Some "/data/a.jpg"; Some "1"; Some "2"; None; None;
             Some "class"].
Proof.
  split; [reflexivity|].
  exact (annotation_row_tokens ragged_table _ 0%nat
           {| d3mIndex := 1; image := "a.jpg"; bounding_box := "1,2,3" |}
           eq_refl eq_refl).
Defined.

Lemma width_const (n : nat) (toks : list (list string)) :
  toks <> [] ->
  Forall (fun t => List.length t = n) toks ->
  Pandas.width toks = n.
Proof.
  induction toks as [|t toks IH]; intros Hne Hall; [congruence|].
  inversion Hall as [|? ? Ht Hl]; subst. simpl.
  destruct toks as [|u toks]; [simpl; lia|].
  rewrite IH; [lia | discriminate | exact Hl].
Qed.

(** X20: the strings [produce] writes are accepted as training input:
    on a table with at least one row in which every bounding-box field
    is the formatter's string of some box, [set_training_data]
    succeeds with one annotation row per input row. *)
Theorem set_training_data_on_formatted (inputs : Inputs) :
  rows inputs <> [] ->
  (forall r, In r (rows inputs) -> exists b, bounding_box r = box_string b) ->
  set_training_data inputs
  = Ok {| annotations :=
            {| Pandas.columns := annotation_names;
               Pandas.data := map (annotation_row inputs) (rows inputs) |};
          classes := [("class", 0%Z)] |}.
Proof.
  intros Hne Hall. apply set_training_data_exact.
  unfold box_width, box_tokens. apply width_const.
  - destruct (rows inputs); [congruence | discriminate].
  - apply Forall_forall. intros t Ht.
    apply in_map_iff in Ht as [s [<- Hs]].
    apply in_map_iff in Hs as [r [<- Hr]].
    destruct (Hall r Hr) as [b ->]. unfold box_string.
    rewrite split_join_str by discriminate. reflexivity.
Qed.

Lemma set_training_data_on_formatted_witness :
  set_training_data boxed_table = Ok boxed_training.
Proof.
  apply (set_training_data_on_formatted boxed_table).
  - discriminate.
  - intros r [<- | []].
    exists {| c0 := 10; c1 := 20; c2 := 30; c3 := 40 |}%Z. reflexivity.
Defined.

(** ** The placeholder helper *)

(** X21: as it is written, [_fill_empty_predictions] cannot build a
    placeholder row: called with at least one image name it raises
    [NameError] at the first key, the mapping it names being bound
    nowhere it can see. *)
Theorem fill_empty_predictions_raises (names : list string) :
  names <> [] -> _fill_empty_predictions names = Raise NameError.
Proof.
  destruct names as [|n names]; [congruence|].
  intros _. reflexivity.
Qed.

Lemma fill_empty_predictions_raises_witness :
  ["b.jpg"] <> [] /\ _fill_empty_predictions ["b.jpg"] = Raise NameError.
Proof.
  split; [discriminate|].
  exact (fill_empty_predictions_raises ["b.jpg"] ltac:(discriminate)).
Defined.

(** ** [get_params] and [set_params] *)

(** X24: [set_params] stores its argument under the attribute
    [params], and [get_params], which reads [_params], returns after it
    what it returned before. *)
Theorem set_params_unread {V : Type} (self : Instance.attrs V) (params : V) :
  PyDict.get (Instance.set_params self params) "params" = Some params
  /\ Instance.get_params (Instance.set_params self params)
     = Instance.get_params self.
Proof.
  unfold Instance.get_params, Instance.set_params.
  rewrite !get_set. split; reflexivity.
Qed.

(** ** Collecting detections and annotations *)

Section Take.

Context {A : Type}.

Lemma take_Forall2 (l : list A) (idx : list nat) :
  forall r, Eval.take l idx = Ok r
            <-> Forall2 (fun i a => nth_error l i = Some a) idx r.
Proof.
  unfold Eval.take.
  induction idx as [|i idx IH]; simpl; intros r.
  - split; intros H; [inversion H; constructor | inversion H; reflexivity].
  - destruct (nth_error l i) as [a|] eqn:Ei; simpl.
    + destruct (Pandas.mapM _ idx) as [r'|e] eqn:Er; simpl.
      * split; intros H.
        -- inversion H. constructor; [exact Ei | apply IH; reflexivity].
        -- inversion H as [|? b ? r'' Hb Hr]; subst.
           apply IH in Hr. inversion Hr. congruence.
      * split; intros H; [discriminate|].
        inversion H as [|? b ? r'' Hb Hr]; subst.
        apply IH in Hr. discriminate.
    + split; intros H; [discriminate|].
      inversion H; subst. congruence.
Qed.

Lemma take_raises (l : list A) (idx : list nat) (e : exn) :
  Eval.take l idx = Raise e -> e = IndexError.
Proof.
  unfold Eval.take. induction idx as [|i idx IH]; simpl; [discriminate|].
  destruct (nth_error l i); simpl; [|intros H; inversion H; reflexivity].
  destruct (Pandas.mapM _ idx); simpl; [discriminate|].
  intros H. inversion H. subst. apply IH. reflexivity.
Qed.

Lemma take_in_range (d : A) (l : list A) (idx : list nat) :
  Forall (fun i => (i < List.length l)%nat) idx ->
  Eval.take l idx = Ok (map (fun i => nth i l d) idx).
Proof.
  intros H. apply take_Forall2.
  induction H as [|i idx Hi _ IH]; simpl; constructor; [|exact IH].
  apply nth_error_nth'. exact Hi.
Qed.

Lemma take_ok_range (l : list A) (idx : list nat) (r : list A) :
  Eval.take l idx = Ok r ->
  Forall (fun i => (i < List.length l)%nat) idx.
Proof.
  intros H. apply take_Forall2 in H.
  induction H as [|i a idx r Hi _ IH]; constructor; [|exact IH].
  apply nth_error_Some. congruence.
Qed.

End Take.

Lemma Forall2_length' {A B} (R : A -> B -> Prop) (l : list A) (l' : list B) :
  Forall2 R l l' -> List.length l = List.length l'.
Proof. induction 1; simpl; congruence. Qed.

Lemma Forall2_nth_error {A B} (R : A -> B -> Prop) (l : list A)
      (l' : list B) :
  Forall2 R l l' ->
  forall n a, nth_error l n = Some a ->
              exists b, nth_error l' n = Some b /\ R a b.
Proof.
  induction 1 as [|x y l l' Hxy _ IH]; intros n a Hn.
  - destruct n; discriminate.
  - destruct n as [|n]; simpl in *.
    + inversion Hn. subst. eauto.
    + apply IH, Hn.
Qed.

(** The positions above the threshold select the scores above the
    threshold. *)
Lemma scores_above (f : Q -> bool) (l : list Q) :
  map (fun j => nth j l 0%Q)
      (filter (fun j => f (nth j l 0%Q)) (seq 0 (List.length l)))
  = filter f l.
Proof.
  induction l as [|x l IH] using rev_ind; [reflexivity|].
  rewrite length_app, Nat.add_comm. simpl List.length.
  rewrite seq_S, !filter_app, map_app. simpl.
  rewrite nth_middle.
  assert (E : filter (fun j => f (nth j (l ++ [x]) 0%Q))
                     (seq 0 (List.length l))
              = filter (fun j => f (nth j l 0%Q)) (seq 0 (List.length l))).
  { apply filter_ext_in. intros j Hj. apply in_seq in Hj.
    rewrite app_nth1 by lia. reflexivity. }
  rewrite E.
  assert (E' : map (fun j => nth j (l ++ [x]) 0%Q)
                   (filter (fun j => f (nth j l 0%Q))
                           (seq 0 (List.length l)))
               = map (fun j => nth j l 0%Q)
                     (filter (fun j => f (nth j l 0%Q))
                             (seq 0 (List.length l)))).
  { apply map_ext_in. intros j Hj. apply filter_In in Hj as [Hj _].
    apply in_seq in Hj. rewrite app_nth1 by lia. reflexivity. }
  rewrite E', IH. f_equal.
  destruct (f x); [|reflexivity].
  simpl. rewrite nth_middle. reflexivity.
Qed.

Lemma take_scores_above (t : Q) (l : list Q) :
  Eval.take l (filter (fun j => Qltb t (nth j l 0%Q))
                      (seq 0 (List.length l)))
  = Ok (filter (Qltb t) l).
Proof.
  rewrite (take_in_range 0%Q).
  - rewrite scores_above. reflexivity.
  - apply Forall_forall. intros j Hj. apply filter_In in Hj as [Hj _].
    apply in_seq in Hj. lia.
Qed.

Lemma concatenate_rows (P : nat -> nat -> Prop)
      (Rb : nat -> Box Q -> Prop) (Rs : nat -> Q -> Prop)
      (Rl : nat -> Z -> Prop) (ss : list nat) :
  forall sel ib isc il,
    Forall2 P ss sel -> Forall2 Rb sel ib -> Forall2 Rs ss isc ->
    Forall2 Rl sel il ->
    List.length (Eval.concatenate ib isc il) = List.length ss
    /\ map (fun d => snd (fst d)) (Eval.concatenate ib isc il) = isc
    /\ Forall (fun d => exists k j,
                   P k j /\ Rb j (fst (fst d)) /\ Rs k (snd (fst d))
                   /\ Rl j (snd d))
              (Eval.concatenate ib isc il).
Proof.
  induction ss as [|k ss IH]; intros sel ib isc il H1 H2 H3 H4.
  - inversion H1; subst. inversion H2; subst. inversion H3; subst.
    inversion H4; subst. simpl. repeat split; constructor.
  - inversion H1 as [|? j ? sel' Hkj H1']; subst.
    inversion H2 as [|? b ? ib' Hb H2']; subst.
    inversion H3 as [|? s ? isc' Hs H3']; subst.
    inversion H4 as [|? l ? il' Hl H4']; subst.
    destruct (IH _ _ _ _ H1' H2' H3' H4') as [Hlen [Hsc Hall]].
    simpl. repeat split.
    + congruence.
    + congruence.
    + constructor; [|exact Hall]. exists k, j. simpl. auto.
Qed.

Section Collect.

Variable argsort : list Q -> list nat.

(** X25: whatever [np.argsort] returns, the rows [image_detections]
    holds for an image are at most [max_detections], and each is the
    box, score and label the network returned at one position, with a
    score above the threshold. *)
Theorem image_detections_selected (p : Eval.Prediction) (t : Q) (m : nat)
        (dets : list Eval.row) :
  Eval.image_detections argsort p t m = Ok dets ->
  (List.length dets <= m)%nat
  /\ Forall (fun d => exists j,
                 nth_error (Eval.boxes p) j = Some (fst (fst d))
                 /\ nth_error (Eval.scores p) j = Some (snd (fst d))
                 /\ nth_error (Eval.labels p) j = Some (snd d)
                 /\ (t < snd (fst d))%Q) dets.
Proof.
  unfold Eval.image_detections. rewrite take_scores_above. cbn [bind].
  set (above := filter (Qltb t) (Eval.scores p)).
  set (indices := filter _ (seq 0 _)).
  set (ss := firstn m _).
  destruct (Eval.take indices ss) as [sel|] eqn:E1; cbn [bind];
    [|discriminate].
  destruct (Eval.take (Eval.boxes p) sel) as [ib|] eqn:E2; cbn [bind];
    [|discriminate].
  destruct (Eval.take above ss) as [isc|] eqn:E3; cbn [bind];
    [|discriminate].
  destruct (Eval.take (Eval.labels p) sel) as [il|] eqn:E4; cbn [bind];
    [|discriminate].
  intros H. inversion H as [Hd]. clear H. subst dets.
  apply take_Forall2 in E1, E2, E3, E4.
  destruct (concatenate_rows _ _ _ _ ss sel ib isc il E1 E2 E3 E4)
    as [Hlen [_ Hall]].
  split.
  - rewrite Hlen. apply firstn_le_length.
  - eapply Forall_impl; [|exact Hall]. simpl.
    intros d [k [j [Hkj [Hb [Hs Hl]]]]]. exists j.
    assert (Hj : In j indices) by (eapply nth_error_In; eauto).
    apply filter_In in Hj as [Hj Habove]. apply in_seq in Hj.
    assert (Hsj : nth_error above k = Some (nth j (Eval.scores p) 0%Q)).
    { unfold above. rewrite <- scores_above. fold indices.
      apply (map_nth_error (fun i => nth i (Eval.scores p) 0%Q)).
      exact Hkj. }
    rewrite Hs in Hsj. inversion Hsj as [Hsd].
    repeat split; try assumption.
    + rewrite Hsd. apply nth_error_nth'. lia.
    + rewrite Hsd. apply Qltb_lt. exact Habove.
Qed.

(** X26: when [np.argsort] lists the positions of the negated scores
    in an order of non-increasing score, the rows of
    [image_detections] come in non-increasing order of score. *)
Theorem image_detections_sorted (p : Eval.Prediction) (t : Q) (m : nat)
        (dets : list Eval.row) :
  descending
    (map (fun k => nth k (filter (Qltb t) (Eval.scores p)) 0%Q)
         (argsort (map Qopp (filter (Qltb t) (Eval.scores p))))) ->
  Eval.image_detections argsort p t m = Ok dets ->
  descending (map (fun d => snd (fst d)) dets).
Proof.
  intros Hdesc.
  unfold Eval.image_detections. rewrite take_scores_above. cbn [bind].
  set (above := filter (Qltb t) (Eval.scores p)) in *.
  set (indices := filter _ (seq 0 _)).
  set (ss := firstn m _).
  destruct (Eval.take indices ss) as [sel|] eqn:E1; cbn [bind];
    [|discriminate].
  destruct (Eval.take (Eval.boxes p) sel) as [ib|] eqn:E2; cbn [bind];
    [|discriminate].
  destruct (Eval.take above ss) as [isc|] eqn:E3; cbn [bind];
    [|discriminate].
  destruct (Eval.take (Eval.labels p) sel) as [il|] eqn:E4; cbn [bind];
    [|discriminate].
  intros H. inversion H as [Hd]. clear H. subst dets.
  pose proof (take_ok_range _ _ _ E3) as Hrange.
  rewrite (take_in_range 0%Q _ _ Hrange) in E3. inversion E3 as [Hisc].
  apply take_Forall2 in E1, E2, E4.
  assert (E3' : Forall2 (fun k s => nth_error above k = Some s) ss
                        (map (fun i => nth i above 0%Q) ss)).
  { apply take_Forall2, take_in_range, Hrange. }
  destruct (concatenate_rows _ _ _ _ ss sel ib _ il E1 E2 E3' E4)
    as [_ [Hsc _]].
  rewrite Hsc. unfold ss. rewrite <- firstn_map.
  clear -Hdesc. revert m.
  induction (map _ (argsort _)) as [|x l IH]; intros m.
  - rewrite firstn_nil. exact I.
  - destruct m; simpl; [exact I|]. destruct Hdesc as [Hx Hl].
    split; [|apply IH, Hl].
    rewrite Forall_forall in Hx |- *. intros y Hy.
    apply Hx. rewrite <- (firstn_skipn m l). apply in_or_app. auto.
Qed.

End Collect.

Lemma image_detections_selected_witness :
  Eval.image_detections stable_argsort sample_prediction (5 # 100) 100
  = Ok [(mk_box 5 6 7 8, 9 # 10, 0%Z); (mk_box 1 2 3 4, 3 # 10, 0%Z)]
  /\ (2 <= 100)%nat.
Proof.
  split; [reflexivity|].
  exact (proj1 (image_detections_selected stable_argsort sample_prediction
                  (5 # 100) 100 _ eq_refl)).
Defined.

Lemma image_detections_sorted_witness :
  Eval.image_detections stable_argsort sample_prediction (5 # 100) 100
  = Ok [(mk_box 5 6 7 8, 9 # 10, 0%Z); (mk_box 1 2 3 4, 3 # 10, 0%Z)]
  /\ descending [9 # 10; 3 # 10].
Proof.
  split; [reflexivity|].
  apply (image_detections_sorted stable_argsort sample_prediction
           (5 # 100) 100
           [(mk_box 5 6 7 8, 9 # 10, 0%Z); (mk_box 1 2 3 4, 3 # 10, 0%Z)]).
  - simpl. repeat split; repeat constructor; discriminate.
  - reflexivity.
Defined.

Lemma assign_app {A} (pre : list A) (x a : A) (rest : list A) :
  Eval.assign (pre ++ x :: rest) (List.length pre) a
  = Ok (pre ++ a :: rest).
Proof.
  induction pre as [|y pre IH]; simpl; [reflexivity|].
  rewrite IH. reflexivity.
Qed.

Lemma mapM_ext {A B} (f g : A -> result B) (l : list A) :
  (forall a, In a l -> f a = g a) -> Pandas.mapM f l = Pandas.mapM g l.
Proof.
  induction l as [|a l IH]; simpl; intros H; [reflexivity|].
  rewrite (H a) by auto. rewrite IH by auto. reflexivity.
Qed.

Lemma mapM_Ok {A B} (g : A -> B) (l : list A) :
  Pandas.mapM (fun a => Ok (g a)) l = Ok (map g l).
Proof.
  induction l as [|a l IH]; simpl; [reflexivity|].
  rewrite IH. reflexivity.
Qed.

Lemma assign_labels_all (has_label : nat -> bool) (dets : list Eval.row) :
  forall m k pre,
    List.length pre = k ->
    (forall l, (k <= l < k + m)%nat -> has_label l = true) ->
    Eval.assign_labels has_label dets (seq k m)
                       (pre ++ List.repeat None m)
    = Ok (pre ++ map (fun l => Some (Eval.by_label dets l)) (seq k m)).
Proof.
  induction m as [|m IH]; intros k pre Hk Hall; simpl.
  - reflexivity.
  - rewrite (Hall k) by lia. rewrite <- Hk at 1.
    rewrite assign_app. cbn [bind].
    replace (pre ++ Some (Eval.by_label dets k) :: List.repeat None m)
      with ((pre ++ [Some (Eval.by_label dets k)]) ++ List.repeat None m)
      by (rewrite <- app_assoc; reflexivity).
    rewrite (IH (S k)).
    + rewrite <- app_assoc. reflexivity.
    + rewrite length_app. simpl. lia.
    + intros l Hl. apply Hall. lia.
Qed.

(** X27: when the generator has every label below [num_classes],
    [_get_detections] returns for each image one list per label, the
    list of a label holding the image's detections of that label, and
    fails only where [image_detections] fails. *)
Theorem get_detections_by_label (argsort : list Q -> list nat)
        (num_classes : nat) (has_label : nat -> bool)
        (predictions : list Eval.Prediction) (t : Q) (m : nat) :
  (forall l, (l < num_classes)%nat -> has_label l = true) ->
  Eval._get_detections argsort num_classes has_label predictions t m
  = Pandas.mapM
      (fun p =>
         dets <- Eval.image_detections argsort p t m ;;
         Ok (map (fun l => Some (Eval.by_label dets l))
                 (seq 0 num_classes)))
      predictions.
Proof.
  intros Hall. unfold Eval._get_detections.
  apply mapM_ext. intros p _.
  destruct (Eval.image_detections argsort p t m) as [dets|]; cbn [bind];
    [|reflexivity].
  rewrite filter_all.
  - rewrite <- repeat_const, length_seq.
    apply (assign_labels_all has_label dets num_classes 0 []);
      [reflexivity|].
    intros l Hl. apply Hall. lia.
  - intros l Hl. apply in_seq in Hl. apply Hall. lia.
Qed.

Lemma get_detections_by_label_witness :
  Eval._get_detections stable_argsort 2 (fun _ => true)
                       [sample_prediction] (5 # 100) 100
  = Ok [[Some [(mk_box 5 6 7 8, 9 # 10); (mk_box 1 2 3 4, 3 # 10)];
         Some []]].
Proof.
  apply (get_detections_by_label stable_argsort 2 (fun _ => true)
           [sample_prediction] (5 # 100) 100).
  intros l _. reflexivity.
Defined.

Lemma annotation_labels_all (has_label : nat -> bool)
      (a : Eval.Annotations) :
  List.length (Eval.a_labels a) = List.length (Eval.bboxes a) ->
  forall m k pre,
    List.length pre = k ->
    Eval.annotation_labels has_label a (seq k m)
                           (pre ++ List.repeat None m)
    = Ok (pre ++ map (fun l => if has_label l
                               then Some (boxes_with_label a l)
                               else None) (seq k m)).
Proof.
  intros Hlen.
  induction m as [|m IH]; intros k pre Hk; simpl; [reflexivity|].
  replace (pre ++ None :: List.repeat None m)
    with ((pre ++ [None]) ++ List.repeat None m)
    by (rewrite <- app_assoc; reflexivity).
  destruct (has_label k) eqn:Ek.
  - unfold Eval.mask_rows. rewrite Hlen, Nat.eqb_refl. cbn [bind].
    rewrite <- app_assoc. simpl app. rewrite <- Hk at 1.
    rewrite assign_app. cbn [bind].
    replace (pre ++ Some (map fst (filter
                (fun bl => Z.eqb (snd bl) (Z.of_nat k))
                (combine (Eval.bboxes a) (Eval.a_labels a))))
                 :: List.repeat None m)
      with ((pre ++ [Some (boxes_with_label a k)]) ++ List.repeat None m)
      by (rewrite <- app_assoc; reflexivity).
    rewrite (IH (S k)); [|rewrite length_app; simpl; lia].
    rewrite <- app_assoc. reflexivity.
  - rewrite (IH (S k)); [|rewrite length_app; simpl; lia].
    rewrite <- app_assoc. reflexivity.
Qed.

(** X28: when every image's annotation labels are as many as its
    boxes, [_get_annotations] returns for each image [num_classes]
    entries: for a label the generator has, the image's boxes of that
    label in their order; for a label it has not, [None]. *)
Theorem get_annotations_by_label (num_classes : nat)
        (has_label : nat -> bool) (annotations : list Eval.Annotations) :
  Forall (fun a => List.length (Eval.a_labels a)
                   = List.length (Eval.bboxes a)) annotations ->
  Eval._get_annotations num_classes has_label annotations
  = Ok (map (fun a => map (fun l => if has_label l
                                    then Some (boxes_with_label a l)
                                    else None) (seq 0 num_classes))
            annotations).
Proof.
  intros Hall. unfold Eval._get_annotations.
  rewrite <- mapM_Ok. apply mapM_ext. intros a Ha.
  rewrite Forall_forall in Hall.
  rewrite <- repeat_const, length_seq.
  apply (annotation_labels_all has_label a (Hall a Ha) num_classes 0 []).
  reflexivity.
Qed.

Lemma get_annotations_by_label_witness :
  Eval._get_annotations 3 (fun l => negb (Nat.eqb l 2)) [sample_annotations]
  = Ok [[Some [mk_box 5 6 7 8]; Some [mk_box 1 2 3 4]; None]].
Proof.
  apply (get_annotations_by_label 3 (fun l => negb (Nat.eqb l 2))
           [sample_annotations]).
  repeat constructor.
Defined.

(** ** The serialisation loses nothing *)

Lemma to_int_proper (z : Z) :
  Z.to_int z <> Decimal.Pos Decimal.Nil
  /\ Z.to_int z <> Decimal.Neg Decimal.Nil.
Proof.
  destruct z; simpl; split; try discriminate;
    intros H; inversion H as [E];
    exact (DecimalPos.Unsigned.to_uint_nonnil _ E).
Qed.

Lemma str_inj (z z' : Z) : PyStr.str z = PyStr.str z' -> z = z'.
Proof.
  unfold PyStr.str. intros H.
  apply (f_equal NilZero.int_of_string) in H.
  destruct (to_int_proper z) as [H1 H2], (to_int_proper z') as [H3 H4].
  rewrite !NilZero.isi in H by assumption.
  inversion H as [E]. apply DecimalZ.to_int_inj, E.
Qed.

(** X29: the formatter's string determines the integer box: two boxes
    with the same string are the same box. *)
Theorem box_string_inj (b b' : Box Z) :
  box_string b = box_string b' -> b = b'.
Proof.
  intros H. apply (f_equal (PyStr.split PyStr.comma)) in H.
  unfold box_string in H.
  rewrite !split_join_str in H by discriminate.
  destruct b as [x0 x1 x2 x3], b' as [y0 y1 y2 y3]. simpl in H.
  injection H as E0 E1 _ E3 E2 _ _ _.
  apply str_inj in E0, E1, E2, E3. congruence.
Qed.

Lemma box_string_inj_witness :
  box_string {| c0 := 10; c1 := 20; c2 := 30; c3 := 40 |}%Z
  = "10,20,10,40,30,40,30,20"
  /\ {| c0 := 10; c1 := 20; c2 := 30; c3 := 40 |}%Z
     = {| c0 := 5 + 5; c1 := 20; c2 := 30; c3 := 40 |}%Z.
Proof.
  split; [reflexivity|].
  exact (box_string_inj {| c0 := 10; c1 := 20; c2 := 30; c3 := 40 |}%Z
                        {| c0 := 5 + 5; c1 := 20; c2 := 30; c3 := 40 |}%Z
                        eq_refl).
Defined.
